(** * Near-Earth objects, close approaches and their CSV / JSON writers

    A shallow embedding of [models.py] and [write.py].  Python values are an
    inductive type, floats are the kernel's binary64 floats, objects live in
    a store indexed by references, and the writers run in a small state and
    exception monad over that store and a file system. *)

From Stdlib Require Import ZArith String Ascii List Bool Lia Floats DecimalString.
From stdpp Require Import gmap strings.
Import ListNotations.

Local Open Scope string_scope.
Local Open Scope list_scope.
Local Open Scope Z_scope.

(** ** Python's built-in values and functions *)

Module Py.

(** The exceptions the program can meet.  [DateParseError] is the failure of
    the date-parsing collaborator. *)
Inductive exn : Type :=
| AssertionError
| TypeError
| ValueError
| OverflowError
| AttributeError
| DateParseError.

Inductive result (A : Type) : Type :=
| Ok (a : A)
| Raise (e : exn).
Arguments Ok {A} a.
Arguments Raise {A} e.

Definition result_map {A B} (f : A -> B) (r : result A) : result B :=
  match r with
  | Ok a => Ok (f a)
  | Raise e => Raise e
  end.

Definition is_ok {A} (r : result A) : bool :=
  match r with Ok _ => true | Raise _ => false end.

(** A naive [datetime.datetime]. *)
Record datetime : Type := mk_datetime {
  year : Z; month : Z; day : Z;
  hour : Z; minute : Z; second : Z; microsecond : Z
}.

(** The scalar values that flow through the attributes of the models. *)
Inductive pyval : Type :=
| PyNone
| PyBool (b : bool)
| PyInt (z : Z)
| PyFloat (f : float)
| PyStr (s : string)
| PyDatetime (d : datetime).

(** *** Characters and strings *)

Definition code (c : ascii) : Z := Z.of_N (N_of_ascii c).
Definition chr (z : Z) : ascii := ascii_of_N (Z.to_N z).
Definition str1 (c : ascii) : string := String c EmptyString.

Definition quote : ascii := chr 34.
Definition backslash : ascii := chr 92.
Definition CR : ascii := chr 13.
Definition LF : ascii := chr 10.

Definition is_digit (c : ascii) : bool := (48 <=? code c) && (code c <=? 57).

Fixpoint repeat_char (c : ascii) (n : nat) : string :=
  match n with
  | O => EmptyString
  | S n' => String c (repeat_char c n')
  end.

Fixpoint contains_char (p : ascii -> bool) (s : string) : bool :=
  match s with
  | EmptyString => false
  | String c s' => p c || contains_char p s'
  end.

(** [sep.join(parts)] *)
Fixpoint join (sep : string) (parts : list string) : string :=
  match parts with
  | [] => EmptyString
  | [x] => x
  | x :: rest => x +:+ sep +:+ join sep rest
  end.

(** Decimal digits of a natural number, [str(n)] for [n >= 0]. *)
Definition digits_of (z : Z) : string :=
  NilZero.string_of_uint (N.to_uint (Z.to_N z)).

(** [str(z)] for an [int]. *)
Definition str_int (z : Z) : string :=
  if z <? 0 then "-" +:+ digits_of (- z) else digits_of z.

(** ["%0wd" % z] for [z >= 0]. *)
Definition pad (w : nat) (z : Z) : string :=
  let d := digits_of z in
  repeat_char "0" (w - String.length d) +:+ d.

(** *** Floats *)

(** The double nearest to [n / d] ([0 <= n], [0 < d]), ties to even. *)
Definition float_of_ratio (n d : Z) : float :=
  if n =? 0 then 0%float
  else
    let sh := Z.log2 n - Z.log2 d - 55 in
    let n' := if sh <? 0 then n * 2 ^ (- sh) else n in
    let d' := if sh <? 0 then d else d * 2 ^ sh in
    let q := n' / d' in
    let r := n' mod d' in
    let l := if r =? 0 then loc_Exact else loc_Inexact (2 * r ?= d') in
    SF2Prim (binary_round_aux prec emax false q sh l).

(** The double nearest to [m * 10 ^ e] ([0 <= m]). *)
Definition float_of_decimal (m e : Z) : float :=
  if 0 <=? e then float_of_ratio (m * 10 ^ e) 1
  else float_of_ratio m (10 ^ (- e)).

(** [float(z)] for an [int]: [OverflowError] when the nearest double is
    infinite. *)
Definition float_of_int (z : Z) : result float :=
  let f := float_of_ratio (Z.abs z) 1 in
  if PrimFloat.is_infinity f then Raise OverflowError
  else Ok (if z <? 0 then PrimFloat.opp f else f).

(** [10 ^ k <= n / d], for the positive rational [n / d]. *)
Definition pow10_le (k n d : Z) : bool :=
  if 0 <=? k then 10 ^ k * d <=? n else d <=? n * 10 ^ (- k).

(** The decimal exponent [k] of a positive rational:
    [10 ^ (k - 1) <= n / d < 10 ^ k].  The binary logarithms give an
    estimate that is then adjusted upwards. *)
Fixpoint adjust_exponent (fuel : nat) (k n d : Z) : Z :=
  match fuel with
  | O => k
  | S fuel' => if pow10_le k n d then adjust_exponent fuel' (k + 1) n d else k
  end.

Definition decimal_exponent (n d : Z) : Z :=
  let k0 := (Z.log2 n - Z.log2 d - 1) * 30103 / 100000 - 1 in
  adjust_exponent 8 k0 n d.

(** [floor (n / d / 10 ^ p)] *)
Definition scaled_floor (n d p : Z) : Z :=
  if 0 <=? p then n / (d * 10 ^ p) else (n * 10 ^ (- p)) / d.

(** Among the decimals [c * 10 ^ p] and [(c + 1) * 10 ^ p] around [n / d],
    those that read back as [x]; the nearer one when both do, and the one
    with the even last digit when [n / d] is half-way between them. *)
Definition round_trip_candidate (x : float) (n d c p : Z) : option Z :=
  let lo_ok := PrimFloat.eqb (float_of_decimal c p) x in
  let hi_ok := PrimFloat.eqb (float_of_decimal (c + 1) p) x in
  let midpoint :=
    if 0 <=? p then (2 * c + 1) * 10 ^ p * d ?= 2 * n
    else (2 * c + 1) * d ?= 2 * n * 10 ^ (- p) in
  match lo_ok, hi_ok with
  | true, true =>
      Some match midpoint with
           | Lt => c + 1
           | Gt => c
           | Eq => if Z.even c then c else c + 1
           end
  | true, false => Some c
  | false, true => Some (c + 1)
  | false, false => None
  end.

(** The shortest decimal that reads back as [x = n / d]: its digits as an
    integer and the power of ten that scales it.  Seventeen digits always
    suffice for a double. *)
Fixpoint shortest_digits (fuel : nat) (x : float) (n d k ndigits : Z) : Z * Z :=
  let p := k - ndigits in
  let c := scaled_floor n d p in
  match fuel with
  | O => (c, p)
  | S fuel' =>
      match round_trip_candidate x n d c p with
      | Some c' => (c', p)
      | None => shortest_digits fuel' x n d k (ndigits + 1)
      end
  end.

Fixpoint strip_zeros (fuel : nat) (c p : Z) : Z * Z :=
  match fuel with
  | O => (c, p)
  | S fuel' =>
      if (c mod 10 =? 0) && negb (c =? 0) then strip_zeros fuel' (c / 10) (p + 1)
      else (c, p)
  end.

(** The layout of [repr]: positional when the decimal point falls within
    [-4 < decpt <= 16], exponent notation otherwise. *)
Definition format_repr (ds : string) (decpt : Z) : string :=
  let len := Z.of_nat (String.length ds) in
  if (-4 <? decpt) && (decpt <=? 16) then
    if decpt <=? 0 then "0." +:+ repeat_char "0" (Z.to_nat (- decpt)) +:+ ds
    else if decpt <? len then
      substring 0 (Z.to_nat decpt) ds +:+ "." +:+
      substring (Z.to_nat decpt) (Z.to_nat (len - decpt)) ds
    else ds +:+ repeat_char "0" (Z.to_nat (decpt - len)) +:+ ".0"
  else
    let e := decpt - 1 in
    substring 0 1 ds +:+
    (if 1 <? len then "." +:+ substring 1 (Z.to_nat (len - 1)) ds else EmptyString) +:+
    "e" +:+ (if e <? 0 then "-" else "+") +:+ pad 2 (Z.abs e).

Definition repr_finite (s : bool) (m : positive) (e : Z) : string :=
  let n := if 0 <=? e then Zpos m * 2 ^ e else Zpos m in
  let d := if 0 <=? e then 1 else 2 ^ (- e) in
  let x := SF2Prim (S754_finite false m e) in
  let k := decimal_exponent n d in
  let '(c, p) := shortest_digits 17 x n d k 1 in
  let '(c', p') := strip_zeros 18 c p in
  let ds := digits_of c' in
  (if s then "-" else EmptyString) +:+
  format_repr ds (Z.of_nat (String.length ds) + p').

(** The value is the not-a-number of IEEE 754. *)
Definition isnan (f : float) : bool :=
  match Prim2SF f with
  | S754_nan => true
  | _ => false
  end.

(** [float.__repr__], which is also [str] of a float. *)
Definition repr_float (f : float) : string :=
  match Prim2SF f with
  | S754_nan => "nan"
  | S754_infinity s => if s then "-inf" else "inf"
  | S754_zero s => if s then "-0.0" else "0.0"
  | S754_finite s m e => repr_finite s m e
  end.

(** *** [float(s)] for a string *)

(** Whitespace as [float] strips it (code points below 256): tab to
    carriage return, the space, and the two spaces above 127. *)
Definition is_space (c : ascii) : bool :=
  let n := code c in
  ((9 <=? n) && (n <=? 13)) || (n =? 32) || (n =? 133) || (n =? 160).

Fixpoint lstrip (s : string) : string :=
  match s with
  | EmptyString => EmptyString
  | String c s' => if is_space c then lstrip s' else s
  end.

Fixpoint rstrip (s : string) : string :=
  match s with
  | EmptyString => EmptyString
  | String c s' =>
      match rstrip s' with
      | EmptyString => if is_space c then EmptyString else str1 c
      | r => String c r
      end
  end.

Definition strip (s : string) : string := rstrip (lstrip s).

Definition lower_char (c : ascii) : ascii :=
  if (65 <=? code c) && (code c <=? 90) then chr (code c + 32) else c.

Fixpoint lower (s : string) : string :=
  match s with
  | EmptyString => EmptyString
  | String c s' => String (lower_char c) (lower s')
  end.

(** An underscore may only stand between two digits; the underscores are
    dropped. *)
Fixpoint remove_underscores (prev : ascii) (s : string) : option string :=
  match s with
  | EmptyString => if Ascii.eqb prev "_" then None else Some EmptyString
  | String c s' =>
      if Ascii.eqb c "_" then
        if is_digit prev then remove_underscores c s' else None
      else if Ascii.eqb prev "_" && negb (is_digit c) then None
      else option_map (String c) (remove_underscores c s')
  end.

(** The leading digits of a string and what follows them. *)
Fixpoint span_digits (s : string) : string * string :=
  match s with
  | EmptyString => (EmptyString, EmptyString)
  | String c s' =>
      if is_digit c then
        let '(ds, rest) := span_digits s' in (String c ds, rest)
      else (EmptyString, s)
  end.

Fixpoint digits_value (acc : Z) (ds : string) : Z :=
  match ds with
  | EmptyString => acc
  | String c ds' => digits_value (10 * acc + (code c - 48)) ds'
  end.

Definition split_sign (s : string) : bool * string :=
  match s with
  | String "-" s' => (true, s')
  | String "+" s' => (false, s')
  | _ => (false, s)
  end.

(** The exponent part: nothing, or [e] or [E], an optional sign and at least
    one digit, up to the end of the string. *)
Definition parse_exponent (s : string) : option Z :=
  match s with
  | EmptyString => Some 0
  | String c s' =>
      if Ascii.eqb (lower_char c) "e" then
        let '(neg, s'') := split_sign s' in
        match span_digits s'' with
        | (String d ds, EmptyString) =>
            let v := digits_value 0 (String d ds) in
            Some (if neg then - v else v)
        | _ => None
        end
      else None
  end.

(** The unsigned decimal literal [s] as a mantissa and a power of ten. *)
Definition parse_decimal (s : string) : option (Z * Z) :=
  let '(ip, rest) := span_digits s in
  let '(fp, rest') :=
    match rest with
    | String "." r => span_digits r
    | _ => (EmptyString, rest)
    end in
  match ip +:+ fp with
  | EmptyString => None
  | ds =>
      match parse_exponent rest' with
      | Some e => Some (digits_value 0 ds, e - Z.of_nat (String.length fp))
      | None => None
      end
  end.

(** The nearest double of [m * 10 ^ e]; decimals far outside the range of
    the doubles are settled without computing the power. *)
Definition float_of_literal (m e : Z) : float :=
  let nd := Z.of_nat (String.length (digits_of m)) in
  if m =? 0 then 0%float
  else if 310 <? nd + e then infinity
  else if nd + e <? -330 then 0%float
  else float_of_decimal m e.

Definition float_of_string (s : string) : option float :=
  match remove_underscores "000" (strip s) with
  | None => None
  | Some s1 =>
      let '(neg, s2) := split_sign s1 in
      let signed (f : float) := if neg then PrimFloat.opp f else f in
      let w := lower s2 in
      if String.eqb w "inf" || String.eqb w "infinity" then Some (signed infinity)
      else if String.eqb w "nan" then Some nan
      else
        match parse_decimal s2 with
        | Some (m, e) => Some (signed (float_of_literal m e))
        | None => None
        end
  end.

(** *** The built-in conversions *)

(** [float(v)] *)
Definition to_float (v : pyval) : result float :=
  match v with
  | PyFloat f => Ok f
  | PyInt z => float_of_int z
  | PyBool b => Ok (if b then 1%float else 0%float)
  | PyStr s =>
      match float_of_string s with
      | Some f => Ok f
      | None => Raise ValueError
      end
  | PyNone | PyDatetime _ => Raise TypeError
  end.

(** [str(d)] for a naive datetime: ISO format with a space separator, the
    microseconds only when they are not zero. *)
Definition str_datetime (d : datetime) : string :=
  pad 4 (year d) +:+ "-" +:+ pad 2 (month d) +:+ "-" +:+ pad 2 (day d) +:+ " " +:+
  pad 2 (hour d) +:+ ":" +:+ pad 2 (minute d) +:+ ":" +:+ pad 2 (second d) +:+
  (if microsecond d =? 0 then EmptyString else "." +:+ pad 6 (microsecond d)).

(** [str(v)], which is also how an f-string renders [{v}]. *)
Definition str (v : pyval) : string :=
  match v with
  | PyNone => "None"
  | PyBool b => if b then "True" else "False"
  | PyInt z => str_int z
  | PyFloat f => repr_float f
  | PyStr s => s
  | PyDatetime d => str_datetime d
  end.

(** [bool(v)], the truth value tested by [if v:]. *)
Definition truthy (v : pyval) : bool :=
  match v with
  | PyNone => false
  | PyBool b => b
  | PyInt z => negb (z =? 0)
  | PyFloat f => negb (PrimFloat.eqb f 0)
  | PyStr s => negb (String.eqb s EmptyString)
  | PyDatetime _ => true
  end.

(** [v is not None] *)
Definition is_not_None (v : pyval) : bool :=
  match v with PyNone => false | _ => true end.

(** [isinstance(v, str)] *)
Definition isinstance_str (v : pyval) : bool :=
  match v with PyStr _ => true | _ => false end.

End Py.

Import Py.

(** ** The [csv] module: a writer in the default (excel) dialect *)

Module csv.

Definition delimiter : ascii := ",".
Definition lineterminator : string := String CR (String LF EmptyString).

(** The text of a field: [None] is empty, a string is itself, anything else
    goes through [str]. *)
Definition field_text (v : pyval) : string :=
  match v with
  | PyNone => EmptyString
  | PyStr s => s
  | _ => str v
  end.

(** Minimal quoting: a field is quoted when it holds the delimiter, the
    quote character or a character of the line terminator. *)
Definition special (c : ascii) : bool :=
  Ascii.eqb c delimiter || Ascii.eqb c quote || Ascii.eqb c CR || Ascii.eqb c LF.

Fixpoint double_quotes (s : string) : string :=
  match s with
  | EmptyString => EmptyString
  | String c s' =>
      if Ascii.eqb c quote then String quote (String quote (double_quotes s'))
      else String c (double_quotes s')
  end.

Definition quoted (s : string) : string :=
  String quote (double_quotes s) +:+ str1 quote.

Definition field (s : string) : string :=
  if contains_char special s then quoted s else s.

(** The record written for one row.  A row whose only field is empty is
    written as a pair of quotes. *)
Definition row_text (row : list pyval) : string :=
  match map field_text row with
  | [EmptyString] => quoted EmptyString +:+ lineterminator
  | texts => join (str1 delimiter) (map field texts) +:+ lineterminator
  end.

End csv.

(** ** The [json] module: the encoder with its default settings *)

Module json.

(** What [json.dump] is given: scalars, lists, and dictionaries with string
    keys in insertion order. *)
#[warnings="-register-all"]
Inductive pyobj : Type :=
| Atom (v : pyval)
| PyList (items : list pyobj)
| PyDict (items : list (string * pyobj)).

(** [d[k] = v]: an existing key keeps its place, a new key goes last. *)
Fixpoint setitem (d : list (string * pyobj)) (k : string) (v : pyobj)
  : list (string * pyobj) :=
  match d with
  | [] => [(k, v)]
  | (k', v') :: d' =>
      if String.eqb k' k then (k', v) :: d' else (k', v') :: setitem d' k v
  end.

Definition hex_digit (n : Z) : ascii :=
  if n <? 10 then chr (48 + n) else chr (87 + n).

(** One character of a string, ASCII only on output. *)
Definition escape_char (c : ascii) : string :=
  let n := code c in
  if n =? 34 then String backslash (str1 quote)
  else if n =? 92 then String backslash (str1 backslash)
  else if n =? 10 then String backslash "n"
  else if n =? 13 then String backslash "r"
  else if n =? 9 then String backslash "t"
  else if n =? 8 then String backslash "b"
  else if n =? 12 then String backslash "f"
  else if (32 <=? n) && (n <=? 126) then str1 c
  else String backslash ("u00" +:+ String (hex_digit (n / 16)) (str1 (hex_digit (n mod 16)))).

Fixpoint escape (s : string) : string :=
  match s with
  | EmptyString => EmptyString
  | String c s' => escape_char c +:+ escape s'
  end.

Definition encode_string (s : string) : string :=
  String quote (escape s) +:+ str1 quote.

Definition encode_float (f : float) : string :=
  if PrimFloat.is_nan f then "NaN"
  else if PrimFloat.eqb f infinity then "Infinity"
  else if PrimFloat.eqb f neg_infinity then "-Infinity"
  else repr_float f.

(** The text written so far, and the exception that stopped the encoder if
    one did. *)
Definition chunks : Type := string * option exn.

Definition emit (s : string) : chunks := (s, None).

Definition andthen (a b : chunks) : chunks :=
  match a with
  | (s, None) => let '(s', e) := b in (s +:+ s', e)
  | (s, Some e) => (s, Some e)
  end.

Definition encode_atom (v : pyval) : chunks :=
  match v with
  | PyNone => emit "null"
  | PyBool b => emit (if b then "true" else "false")
  | PyInt z => emit (str_int z)
  | PyFloat f => emit (encode_float f)
  | PyStr s => emit (encode_string s)
  | PyDatetime _ => (EmptyString, Some TypeError)
  end.

Fixpoint iterencode (o : pyobj) : chunks :=
  match o with
  | Atom v => encode_atom v
  | PyList [] => emit "[]"
  | PyList (x :: rest) =>
      andthen (emit "[")
        (andthen (iterencode x)
           ((fix tail (l : list pyobj) : chunks :=
               match l with
               | [] => emit "]"
               | y :: l' => andthen (emit ", ") (andthen (iterencode y) (tail l'))
               end) rest))
  | PyDict [] => emit "{}"
  | PyDict ((k, v) :: rest) =>
      andthen (emit "{")
        (andthen (emit (encode_string k))
           (andthen (emit ": ")
              (andthen (iterencode v)
                 ((fix tail (l : list (string * pyobj)) : chunks :=
                     match l with
                     | [] => emit "}"
                     | (k', v') :: l' =>
                         andthen (emit ", ")
                           (andthen (emit (encode_string k'))
                              (andthen (emit ": ")
                                 (andthen (iterencode v') (tail l'))))
                     end) rest))))
  end.

End json.

(** ** Format specifications and [repr] *)

Module PyFormat.

(** [format(f, ".pf")]: [p] digits after the point, the exact value rounded
    to nearest with ties to even; a negative value keeps its sign when it
    rounds to zero. *)
Definition format_fixed (p : nat) (f : float) : string :=
  let point_zeros :=
    match p with
    | O => EmptyString
    | _ => "." +:+ repeat_char "0" p
    end in
  match Prim2SF f with
  | S754_nan => "nan"
  | S754_infinity s => if s then "-inf" else "inf"
  | S754_zero s => (if s then "-0" else "0") +:+ point_zeros
  | S754_finite s m e =>
      let n := if 0 <=? e then Zpos m * 2 ^ e else Zpos m in
      let d := if 0 <=? e then 1 else 2 ^ (- e) in
      let scale := 10 ^ Z.of_nat p in
      let q := (n * scale) / d in
      let r := (n * scale) mod d in
      let q' :=
        match 2 * r ?= d with
        | Gt => q + 1
        | Eq => if Z.even q then q else q + 1
        | Lt => q
        end in
      (if s then "-" else EmptyString) +:+ digits_of (q' / scale) +:+
      match p with
      | O => EmptyString
      | _ => "." +:+ pad p (q' mod scale)
      end
  end.

(** The characters that [repr] of a string writes as they are (code points
    below 256). *)
Definition printable (c : ascii) : bool :=
  let n := code c in
  ((32 <=? n) && (n <=? 126)) || ((161 <=? n) && negb (n =? 173)).

Definition hex2 (n : Z) : string :=
  String (json.hex_digit (n / 16)) (str1 (json.hex_digit (n mod 16))).

Definition repr_char (q : ascii) (c : ascii) : string :=
  let n := code c in
  if Ascii.eqb c q || (n =? 92) then String backslash (str1 c)
  else if n =? 9 then String backslash "t"
  else if n =? 10 then String backslash "n"
  else if n =? 13 then String backslash "r"
  else if printable c then str1 c
  else String backslash ("x" +:+ hex2 n).

Fixpoint repr_chars (q : ascii) (s : string) : string :=
  match s with
  | EmptyString => EmptyString
  | String c s' => repr_char q c +:+ repr_chars q s'
  end.

(** [repr(s)] for a string: single quotes, unless the string has a single
    quote and no double quote. *)
Definition repr_str (s : string) : string :=
  let q :=
    if contains_char (Ascii.eqb "'") s && negb (contains_char (Ascii.eqb quote) s)
    then quote else "'"%char in
  String q (repr_chars q s) +:+ str1 q.

(** [repr(d)] for a naive datetime: the trailing microseconds and seconds
    are left out when they are zero. *)
Definition repr_datetime (d : datetime) : string :=
  let fields :=
    [year d; month d; day d; hour d; minute d] ++
    (if microsecond d =? 0 then
       if second d =? 0 then [] else [second d]
     else [second d; microsecond d]) in
  "datetime.datetime(" +:+ join ", " (map str_int fields) +:+ ")".

(** [repr(v)], how an f-string renders [{v!r}]. *)
Definition repr (v : pyval) : string :=
  match v with
  | PyNone => "None"
  | PyBool b => if b then "True" else "False"
  | PyInt z => str_int z
  | PyFloat f => repr_float f
  | PyStr s => repr_str s
  | PyDatetime d => repr_datetime d
  end.

End PyFormat.

(** ** The [helpers] module *)

Module helpers.

Definition all_digits (s : string) : bool :=
  negb (contains_char (fun c => negb (is_digit c)) s).

Definition number_at (s : string) (start len : nat) : option Z :=
  let t := substring start len s in
  if all_digits t && (String.length t =? len)%nat then Some (digits_value 0 t)
  else None.

Definition char_at (s : string) (i : nat) (c : ascii) : bool :=
  match String.get i s with
  | Some c' => Ascii.eqb c' c
  | None => false
  end.

Definition is_leap (y : Z) : bool :=
  (y mod 4 =? 0) && (negb (y mod 100 =? 0) || (y mod 400 =? 0)).

Definition days_in_month (y m : Z) : Z :=
  if m =? 2 then (if is_leap y then 29 else 28)
  else if (m =? 4) || (m =? 6) || (m =? 9) || (m =? 11) then 30
  else 31.

(** A calendar date and a time of day that exist. *)
Definition valid_instant (y m d h mi : Z) : bool :=
  (1 <=? y) && (1 <=? m) && (m <=? 12) && (1 <=? d) && (d <=? days_in_month y m) &&
  (h <=? 23) && (mi <=? 59).

Definition parse_instant (s : string) : option datetime :=
  if (String.length s =? 16)%nat && char_at s 4 "-" && char_at s 7 "-" &&
     char_at s 10 " " && char_at s 13 ":"
  then
    match number_at s 0 4, number_at s 5 2, number_at s 8 2,
          number_at s 11 2, number_at s 14 2 with
    | Some y, Some m, Some d, Some h, Some mi =>
        if valid_instant y m d h mi then Some (mk_datetime y m d h mi 0 0)
        else None
    | _, _, _, _, _ => None
    end
  else None.

(** Modelled from the spec: [helpers.py] is not among the sources.  The date
    parser accepts the YYYY-MM-DD HH:MM format only and returns a naive
    instant with no seconds; on anything else it fails with the date-parse
    error. *)
Definition cd_to_datetime (calendar_date : pyval) : result datetime :=
  match calendar_date with
  | PyStr s =>
      match parse_instant s with
      | Some d => Ok d
      | None => Raise DateParseError
      end
  | _ => Raise DateParseError
  end.

(** Modelled from the spec: [helpers.py] is not among the sources.  The
    formatter renders an instant without its seconds, in the YYYY-MM-DD HH:MM
    shape of the input. *)
Definition datetime_to_str (dt : datetime) : string :=
  pad 4 (year dt) +:+ "-" +:+ pad 2 (month dt) +:+ "-" +:+ pad 2 (day dt) +:+ " " +:+
  pad 2 (hour dt) +:+ ":" +:+ pad 2 (minute dt).

End helpers.

(** ** [models.py] *)

#[global] Instance result_ret : MRet result := fun A a => Ok a.
#[global] Instance result_bind : MBind result := fun A B f r =>
  match r with
  | Ok a => f a
  | Raise e => Raise e
  end.

(** A reference to an object of the store. *)
Definition ref : Type := positive.

(** Keyword arguments. *)
Abbreviation kwargs := (gmap string pyval).

Module NearEarthObject.

Record t : Type := mk {
  designation : string;
  name : pyval;
  diameter : float;
  hazardous : pyval;
  approaches : list ref
}.

(** [info] is the dictionary bound to the excess keyword arguments, so
    none of its keys names a parameter of the constructor. *)
Definition __init__ (designation : pyval) (info : kwargs) : result t :=
  match designation with
  | PyStr pdes =>
      let name := match info !! "name" with Some v => v | None => PyNone end in
      diameter ← match info !! "diameter" with
                 | Some v => to_float v
                 | None => to_float (PyStr "nan")
                 end;
      let hazardous :=
        match info !! "hazardous" with Some v => v | None => PyBool false end in
      Ok (mk pdes name diameter hazardous [])
  | _ => Raise AssertionError
  end.

(** [str + str]; anything else on the right is a [TypeError]. *)
Definition fullname (self : t) : result string :=
  if is_not_None (name self) then
    match name self with
    | PyStr n => Ok (designation self +:+ ", " +:+ n)
    | _ => Raise TypeError
    end
  else Ok (designation self).

Definition __str__ (self : t) : string :=
  let text := "A NearEarthObject with designation " +:+ designation self +:+ "." in
  let text :=
    if is_not_None (name self) then text +:+ " It's name is " +:+ str (name self)
    else text in
  let text :=
    if PrimFloat.eqb (diameter self) (diameter self) then
      text +:+ " It has a diameter of " +:+ str (PyFloat (diameter self)) +:+ "m."
    else text in
  let text :=
    if truthy (hazardous self) then text +:+ " It is endangering us all!"
    else text +:+ " It is harmless." in
  text.

Definition __repr__ (self : t) : string :=
  "NearEarthObject(designation=" +:+ PyFormat.repr_str (designation self) +:+
  ", name=" +:+ PyFormat.repr (name self) +:+ ", " +:+
  "diameter=" +:+ PyFormat.format_fixed 3 (diameter self) +:+
  ", hazardous=" +:+ PyFormat.repr (hazardous self) +:+ ")".

End NearEarthObject.

Module CloseApproach.

Record t : Type := mk {
  _designation : pyval;
  time : datetime;
  distance : float;
  velocity : float;
  neo : option ref
}.

(** [info] is the dictionary bound to the excess keyword arguments, so
    none of its keys names a parameter of the constructor. *)
Definition __init__ (designation time : pyval) (info : kwargs) : result t :=
  time ← helpers.cd_to_datetime time;
  distance ← match info !! "distance" with
             | Some v => to_float v
             | None => Ok 0%float
             end;
  velocity ← match info !! "velocity" with
             | Some v => to_float v
             | None => Ok 0%float
             end;
  Ok (mk designation time distance velocity None).

Definition time_str (self : t) : string := helpers.datetime_to_str (time self).

Definition __str__ (self : t) : string :=
  let text :=
    "A CloseApproach of " +:+ str (_designation self) +:+
    " that happened on " +:+ time_str self +:+ "." in
  let text :=
    if PrimFloat.ltb 0 (velocity self) then
      text +:+ " The velocity was " +:+ str (PyFloat (velocity self))
    else text in
  let text :=
    if PrimFloat.ltb 0 (distance self) then
      text +:+ " The distance was " +:+ str (PyFloat (distance self))
    else text in
  text.

(** [neo_repr] is the text of [{self.neo!r}]. *)
Definition __repr__ (neo_repr : string) (self : t) : string :=
  "CloseApproach(time=" +:+ PyFormat.repr_str (time_str self) +:+
  ", distance=" +:+ PyFormat.format_fixed 2 (distance self) +:+ ", " +:+
  "velocity=" +:+ PyFormat.format_fixed 2 (velocity self) +:+
  ", neo=" +:+ neo_repr +:+ ")".

End CloseApproach.

(** ** The object store, the file system and the monad of the writers *)

Inductive object : Type :=
| NEO (n : NearEarthObject.t)
| CA (c : CloseApproach.t).

Record world : Type := mk_world {
  heap : gmap ref object;
  files : gmap string string
}.

(** A computation may read and change the world and may raise; what it did
    to the world before raising stays done. *)
Definition M (A : Type) : Type := world -> result A * world.

#[global] Instance M_ret : MRet M := fun A a w => (Ok a, w).
#[global] Instance M_bind : MBind M := fun A B f m w =>
  match m w with
  | (Ok a, w') => f a w'
  | (Raise e, w') => (Raise e, w')
  end.

Definition raise {A} (e : exn) : M A := fun w => (Raise e, w).

(** [o.attr] where [attr] is an attribute of close approaches. *)
Definition getattr_CloseApproach {A} (attr : CloseApproach.t -> A) (o : ref) : M A :=
  fun w =>
    match heap w !! o with
    | Some (CA c) => (Ok (attr c), w)
    | _ => (Raise AttributeError, w)
    end.

(** [n.attr] where [attr] is an attribute of near-Earth objects and [n] the
    value of some [o.neo]: [None] has no attributes. *)
Definition getattr_NearEarthObject {A} (attr : NearEarthObject.t -> A) (n : option ref)
  : M A :=
  fun w =>
    match n with
    | Some l =>
        match heap w !! l with
        | Some (NEO n) => (Ok (attr n), w)
        | _ => (Raise AttributeError, w)
        end
    | None => (Raise AttributeError, w)
    end.

(** [o.neo.attr] *)
Definition neo_attr {A} (attr : NearEarthObject.t -> A) (o : ref) : M A :=
  n ← getattr_CloseApproach CloseApproach.neo o;
  getattr_NearEarthObject attr n.

(** [open(filename, "w")]: the file is created or truncated.  The handle is
    the path.  Files are told apart by the text of their path (paths are not
    resolved), and opening always succeeds. *)
Definition open_w (filename : string) : M string :=
  fun w => (Ok filename, mk_world (heap w) (<[filename := EmptyString]> (files w))).

(** [f.write(s)] *)
Definition write (f : string) (s : string) : M unit :=
  fun w =>
    (Ok tt, mk_world (heap w) (<[f := default EmptyString (files w !! f) +:+ s]> (files w))).

(** [writer.writerow(row)] for [writer = csv.writer(f)] *)
Definition writerow (f : string) (row : list pyval) : M unit :=
  write f (csv.row_text row).

(** [json.dump(obj, f)]: the chunks reach the file as they are produced. *)
Definition json_dump (obj : json.pyobj) (f : string) : M unit :=
  let '(s, e) := json.iterencode obj in
  write f s;;
  match e with
  | None => mret tt
  | Some e => raise e
  end.

(** [for x in xs: body(x)] *)
Fixpoint for_each {A} (xs : list A) (body : A -> M unit) : M unit :=
  match xs with
  | [] => mret tt
  | x :: xs' => body x;; for_each xs' body
  end.

(** ** [write.py] *)

Module write.

Import json.

Definition fieldnames : list pyval :=
  [ PyStr "datetime_utc";
    PyStr "distance_au";
    PyStr "velocity_km_s";
    PyStr "designation";
    PyStr "name";
    PyStr "diameter_km";
    PyStr "potentially_hazardous" ].

(** The tuple [line] of one iteration. *)
Definition csv_line (o : ref) : M (list pyval) :=
  c ← neo_attr NearEarthObject.name o;
  name ← (if is_not_None c then neo_attr NearEarthObject.name o
          else mret (PyStr EmptyString));
  d1 ← neo_attr NearEarthObject.diameter o;
  d2 ← neo_attr NearEarthObject.diameter o;
  dia ← (if PrimFloat.eqb d1 d2 then
           d ← neo_attr NearEarthObject.diameter o; mret (PyFloat d)
         else mret (PyStr EmptyString));
  time ← getattr_CloseApproach CloseApproach.time o;
  distance ← getattr_CloseApproach CloseApproach.distance o;
  velocity ← getattr_CloseApproach CloseApproach.velocity o;
  designation ← getattr_CloseApproach CloseApproach._designation o;
  hazardous ← neo_attr NearEarthObject.hazardous o;
  mret [ PyDatetime time; PyFloat distance; PyFloat velocity; designation;
         name; dia; hazardous ].

(** [results] is the sequence of approaches that iterating the argument
    yields. *)
Definition write_to_csv (results : list ref) (filename : string) : M unit :=
  f ← open_w filename;
  writerow f fieldnames;;
  for_each results (fun o =>
    line ← csv_line o;
    writerow f line).

(** The dictionary [obj_dict] of one iteration. *)
Definition json_obj (o : ref) : M pyobj :=
  let neo_dict := [] in
  designation ← neo_attr NearEarthObject.designation o;
  let neo_dict := setitem neo_dict "designation" (Atom (PyStr designation)) in
  c ← neo_attr NearEarthObject.name o;
  name ← (if is_not_None c then neo_attr NearEarthObject.name o
          else mret (PyStr EmptyString));
  let neo_dict := setitem neo_dict "name" (Atom name) in
  diameter ← neo_attr NearEarthObject.diameter o;
  let neo_dict := setitem neo_dict "diameter_km" (Atom (PyFloat diameter)) in
  hazardous ← neo_attr NearEarthObject.hazardous o;
  let neo_dict :=
    setitem neo_dict "potentially_hazardous"
      (Atom (PyBool (if truthy hazardous then true else false))) in
  let obj_dict := [] in
  time ← getattr_CloseApproach CloseApproach.time o;
  let obj_dict :=
    setitem obj_dict "datetime_utc" (Atom (PyStr (helpers.datetime_to_str time))) in
  distance ← getattr_CloseApproach CloseApproach.distance o;
  let obj_dict := setitem obj_dict "distance_au" (Atom (PyFloat distance)) in
  velocity ← getattr_CloseApproach CloseApproach.velocity o;
  let obj_dict := setitem obj_dict "velocity_km_s" (Atom (PyFloat velocity)) in
  let obj_dict := setitem obj_dict "neo" (PyDict neo_dict) in
  mret (PyDict obj_dict).

(** The loop that fills [top_lvl_list]. *)
Fixpoint collect (results : list ref) (top_lvl_list : list pyobj) : M (list pyobj) :=
  match results with
  | [] => mret top_lvl_list
  | o :: rest =>
      obj_dict ← json_obj o;
      collect rest (top_lvl_list ++ [obj_dict])
  end.

Definition write_to_json (results : list ref) (filename : string) : M unit :=
  f ← open_w filename;
  if (List.length results =? 0)%nat then json_dump (PyList []) f
  else
    top_lvl_list ← collect results [];
    json_dump (PyList top_lvl_list) f.

End write.

(** ** Creating and linking objects *)

Definition lift {A} (r : result A) : M A := fun w => (r, w).

(** A new object gets a reference that is not in use. *)
Definition new (o : object) : M ref :=
  fun w =>
    let l := fresh (dom (heap w)) in
    (Ok l, mk_world (<[l := o]> (heap w)) (files w)).

(** [NearEarthObject(designation, **info)] *)
Definition new_NearEarthObject (designation : pyval) (info : kwargs) : M ref :=
  self ← lift (NearEarthObject.__init__ designation info);
  new (NEO self).

(** [CloseApproach(designation, time, **info)] *)
Definition new_CloseApproach (designation time : pyval) (info : kwargs) : M ref :=
  self ← lift (CloseApproach.__init__ designation time info);
  new (CA self).

Definition set_neo (c : CloseApproach.t) (n : option ref) : CloseApproach.t :=
  CloseApproach.mk (CloseApproach._designation c) (CloseApproach.time c)
    (CloseApproach.distance c) (CloseApproach.velocity c) n.

Definition set_approaches (n : NearEarthObject.t) (l : list ref) : NearEarthObject.t :=
  NearEarthObject.mk (NearEarthObject.designation n) (NearEarthObject.name n)
    (NearEarthObject.diameter n) (NearEarthObject.hazardous n) l.

(** Modelled from the spec: the linking step is not among the sources.  It
    resolves the reference of an approach to its NEO and appends the approach
    to the collection of that NEO. *)
Definition link (a n : ref) : M unit :=
  fun w =>
    match heap w !! a, heap w !! n with
    | Some (CA c), Some (NEO e) =>
        let e' := set_approaches e (NearEarthObject.approaches e ++ [a]) in
        (Ok tt,
         mk_world (<[a := CA (set_neo c (Some n))]> (<[n := NEO e']> (heap w))) (files w))
    | _, _ => (Raise AttributeError, w)
    end.

(** ** What the writers are expected to produce *)

(** The approach behind a reference together with the NEO it is linked to. *)
Definition resolve (h : gmap ref object) (o : ref)
  : option (CloseApproach.t * NearEarthObject.t) :=
  match h !! o with
  | Some (CA c) =>
      match CloseApproach.neo c with
      | Some l =>
          match h !! l with
          | Some (NEO n) => Some (c, n)
          | _ => None
          end
      | None => None
      end
  | _ => None
  end.

Fixpoint resolve_all (h : gmap ref object) (results : list ref)
  : option (list (CloseApproach.t * NearEarthObject.t)) :=
  match results with
  | [] => Some []
  | o :: rest =>
      match resolve h o, resolve_all h rest with
      | Some p, Some ps => Some (p :: ps)
      | _, _ => None
      end
  end.

Fixpoint concat_strings (l : list string) : string :=
  match l with
  | [] => EmptyString
  | s :: l' => s +:+ concat_strings l'
  end.

Module spec.

(** The data row of an approach, field by field, in the words of the
    specification. *)
Definition csv_line (c : CloseApproach.t) (n : NearEarthObject.t) : list pyval :=
  [ PyDatetime (CloseApproach.time c);
    PyFloat (CloseApproach.distance c);
    PyFloat (CloseApproach.velocity c);
    CloseApproach._designation c;
    match NearEarthObject.name n with
    | PyNone => PyStr EmptyString
    | present => present
    end;
    if isnan (NearEarthObject.diameter n) then PyStr EmptyString
    else PyFloat (NearEarthObject.diameter n);
    NearEarthObject.hazardous n ].

(** The JSON object of an approach. *)
Definition json_obj (c : CloseApproach.t) (n : NearEarthObject.t) : json.pyobj :=
  json.PyDict
    [ ("datetime_utc", json.Atom (PyStr (helpers.datetime_to_str (CloseApproach.time c))));
      ("distance_au", json.Atom (PyFloat (CloseApproach.distance c)));
      ("velocity_km_s", json.Atom (PyFloat (CloseApproach.velocity c)));
      ("neo",
       json.PyDict
         [ ("designation", json.Atom (PyStr (NearEarthObject.designation n)));
           ("name",
            json.Atom match NearEarthObject.name n with
                      | PyNone => PyStr EmptyString
                      | present => present
                      end);
           ("diameter_km", json.Atom (PyFloat (NearEarthObject.diameter n)));
           ("potentially_hazardous",
            json.Atom (PyBool (truthy (NearEarthObject.hazardous n)))) ]) ].

(** The clauses of the rendering of a NEO. *)
Definition name_clause (n : NearEarthObject.t) : string :=
  match NearEarthObject.name n with
  | PyNone => EmptyString
  | present => " It's name is " +:+ str present
  end.

Definition diameter_clause (n : NearEarthObject.t) : string :=
  if isnan (NearEarthObject.diameter n) then EmptyString
  else " It has a diameter of " +:+ repr_float (NearEarthObject.diameter n) +:+ "m.".

Definition hazard_clause (hazardous : bool) : string :=
  if hazardous then " It is endangering us all!" else " It is harmless.".

(** The clauses of the rendering of a close approach. *)
Definition velocity_clause (c : CloseApproach.t) : string :=
  if PrimFloat.ltb 0 (CloseApproach.velocity c) then
    " The velocity was " +:+ repr_float (CloseApproach.velocity c)
  else EmptyString.

Definition distance_clause (c : CloseApproach.t) : string :=
  if PrimFloat.ltb 0 (CloseApproach.distance c) then
    " The distance was " +:+ repr_float (CloseApproach.distance c)
  else EmptyString.

End spec.

(** The header as it stands in the file. *)
Definition csv_header : string :=
  "datetime_utc,distance_au,velocity_km_s,designation,name,diameter_km,potentially_hazardous".

(** Apostrophes stand for double quotes in the JSON texts written below. *)
Fixpoint dq (s : string) : string :=
  match s with
  | EmptyString => EmptyString
  | String c s' => String (if Ascii.eqb c "'" then quote else c) (dq s')
  end.

(** The example of the documentation: the keyword arguments of the NEO
    433 Eros and of its approach, and the array expected in the file.  The
    decimal literals stand for the nearest doubles, as they do in Python. *)
#[local] Set Warnings "-inexact-float".

Definition eros_info : kwargs :=
  <["name" := PyStr "Eros"]>
    (<["diameter" := PyFloat 16.84]> (<["hazardous" := PyBool false]> ∅)).

Definition eros_approach_info : kwargs :=
  <["distance" := PyFloat 0.0865]> (<["velocity" := PyFloat 16.75]> ∅).

Definition eros_json : string :=
  dq ("[{'datetime_utc': '1900-01-01 00:27', 'distance_au': 0.0865, " +:+
      "'velocity_km_s': 16.75, 'neo': {'designation': '433', 'name': 'Eros', " +:+
      "'diameter_km': 16.84, 'potentially_hazardous': false}}]").

(** The example built from nothing: both objects are created and linked;
    the result is the reference of the approach. *)
Definition eros_scenario : M ref :=
  n ← new_NearEarthObject (PyStr "433") eros_info;
  a ← new_CloseApproach (PyStr "433") (PyStr "1900-01-01 00:27") eros_approach_info;
  link a n;;
  mret a.

Definition empty_world : world := mk_world ∅ ∅.

(** ** Renderings through the store *)

(** [repr(r)] for the value [r] of a [neo] attribute: [None], or the object
    behind the reference rendered by its class.  An approach renders its own
    [neo] in turn, so the nesting is bounded by [fuel]; there is no text
    when the bound is reached. *)
Fixpoint repr_object (fuel : nat) (h : gmap ref object) (r : option ref) : option string :=
  match r with
  | None => Some "None"
  | Some l =>
      match h !! l with
      | Some (NEO n) => Some (NearEarthObject.__repr__ n)
      | Some (CA c) =>
          match fuel with
          | O => None
          | S fuel' =>
              match repr_object fuel' h (CloseApproach.neo c) with
              | Some s => Some (CloseApproach.__repr__ s c)
              | None => None
              end
          end
      | None => None
      end
  end.

(** ** The text of the JSON file *)

(** What follows the first element of a list in the encoder. *)
Fixpoint list_tail (l : list json.pyobj) : json.chunks :=
  match l with
  | [] => json.emit "]"
  | y :: l' =>
      json.andthen (json.emit ", ") (json.andthen (json.iterencode y) (list_tail l'))
  end.

(** The values the encoder accepts. *)
Definition json_scalar (v : pyval) : bool :=
  match v with
  | PyDatetime _ => false
  | _ => true
  end.

(** The text of a scalar other than a datetime. *)
Definition json_scalar_text (v : pyval) : string :=
  match v with
  | PyNone => "null"
  | PyBool b => if b then "true" else "false"
  | PyInt z => str_int z
  | PyFloat f => json.encode_float f
  | PyStr s => json.encode_string s
  | PyDatetime _ => EmptyString
  end.

(** The text of the object of one approach, key by key. *)
Definition json_obj_text (p : CloseApproach.t * NearEarthObject.t) : string :=
  let (c, n) := p in
  dq "{'datetime_utc': " +:+
  json.encode_string (helpers.datetime_to_str (CloseApproach.time c)) +:+
  dq ", 'distance_au': " +:+ json.encode_float (CloseApproach.distance c) +:+
  dq ", 'velocity_km_s': " +:+ json.encode_float (CloseApproach.velocity c) +:+
  dq ", 'neo': {'designation': " +:+
  json.encode_string (NearEarthObject.designation n) +:+
  dq ", 'name': " +:+
  match NearEarthObject.name n with
  | PyNone => json.encode_string EmptyString
  | present => json_scalar_text present
  end +:+
  dq ", 'diameter_km': " +:+ json.encode_float (NearEarthObject.diameter n) +:+
  dq ", 'potentially_hazardous': " +:+
  (if truthy (NearEarthObject.hazardous n) then "true" else "false") +:+ "}}".

Definition json_text (pairs : list (CloseApproach.t * NearEarthObject.t)) : string :=
  "[" +:+ join ", " (map json_obj_text pairs) +:+ "]".


(** A keyword argument is absent or converts to a float. *)
Definition converts (v : option pyval) : bool :=
  match v with
  | Some x => is_ok (to_float x)
  | None => true
  end.


(** Every character of the string passes the test. *)
Fixpoint forall_chars (p : ascii -> bool) (s : string) : bool :=
  match s with
  | EmptyString => true
  | String c s' => p c && forall_chars p s'
  end.


(** The characters of the two texts of an instant. *)
Definition datetime_char (c : ascii) : bool :=
  is_digit c || Ascii.eqb c "-" || Ascii.eqb c " " || Ascii.eqb c ":" || Ascii.eqb c ".".

(** The data row of an approach after its first field: the separators, the
    six other fields and the line terminator. *)
Definition csv_row_rest (p : CloseApproach.t * NearEarthObject.t) : string :=
  "," +:+
  join "," (map (fun v => csv.field (csv.field_text v)) (tail (spec.csv_line p.1 p.2))) +:+
  csv.lineterminator.

(** The entries of the JSON object of an approach after [datetime_utc]. *)
Definition json_obj_rest (p : CloseApproach.t * NearEarthObject.t)
  : list (string * json.pyobj) :=
  match spec.json_obj p.1 p.2 with
  | json.PyDict (_ :: rest) => rest
  | _ => []
  end.

(** The text of the JSON object of an approach after the value of
    datetime_utc. *)
Definition json_obj_text_rest (p : CloseApproach.t * NearEarthObject.t) : string :=
  let (c, n) := p in
  dq ", 'distance_au': " +:+ json.encode_float (CloseApproach.distance c) +:+
  dq ", 'velocity_km_s': " +:+ json.encode_float (CloseApproach.velocity c) +:+
  dq ", 'neo': {'designation': " +:+
  json.encode_string (NearEarthObject.designation n) +:+
  dq ", 'name': " +:+
  match NearEarthObject.name n with
  | PyNone => json.encode_string EmptyString
  | present => json_scalar_text present
  end +:+
  dq ", 'diameter_km': " +:+ json.encode_float (NearEarthObject.diameter n) +:+
  dq ", 'potentially_hazardous': " +:+
  (if truthy (NearEarthObject.hazardous n) then "true" else "false") +:+ "}}".

(** A small world for examples: a NEO with no name, an unknown diameter and
    a string as hazard flag, an approach linked to it, and an approach that
    is not linked. *)
Definition sample_neo : NearEarthObject.t :=
  NearEarthObject.mk "2020 AB" PyNone nan (PyStr "N") [2%positive].

Definition sample_linked : CloseApproach.t :=
  CloseApproach.mk (PyStr "2020 AB") (mk_datetime 2020 2 29 23 59 0 0)
    0.5%float 0%float (Some 1%positive).

Definition sample_unlinked : CloseApproach.t :=
  CloseApproach.mk (PyStr "2021 CD") (mk_datetime 2021 1 1 0 0 0 0)
    0%float 7.25%float None.

Definition sample_world : world :=
  mk_world
    (<[1%positive := NEO sample_neo]>
       (<[2%positive := CA sample_linked]> (<[3%positive := CA sample_unlinked]> ∅)))
    (<["notes.txt" := "keep"]> ∅).

(** A computation that leaves the object store as it found it, whatever its
    outcome. *)
Definition preserves_heap {A} (m : M A) : Prop :=
  forall w, heap (m w).2 = heap w.

(** The data rows of a sequence of linked approaches. *)
Definition csv_rows (pairs : list (CloseApproach.t * NearEarthObject.t)) : list string :=
  map (fun p => csv.row_text (spec.csv_line p.1 p.2)) pairs.

(** The outcome of [json.dump] on a freshly opened file. *)
Definition dumped (obj : json.pyobj) (filename : string) (w : world) : result unit * world :=
  (match (json.iterencode obj).2 with None => Ok tt | Some e => Raise e end,
   mk_world (heap w) (<[filename := (json.iterencode obj).1]> (files w))).

(** * Properties *)

(** ** The built-ins on known values *)

Example repr_float_known :
  map repr_float
    [ 16.84; 0.0865; 16.75; 0.1; 0.1 + 0.2; 1e22; 1e16; 1e15; 1e-4; 1e-5;
      123456789012345678; 0.5; -2.5; 100; 0; -0; nan; infinity; neg_infinity ]%float =
  [ "16.84"; "0.0865"; "16.75"; "0.1"; "0.30000000000000004"; "1e+22"; "1e+16";
    "1000000000000000.0"; "0.0001"; "1e-05"; "1.2345678901234568e+17"; "0.5";
    "-2.5"; "100.0"; "0.0"; "-0.0"; "nan"; "inf"; "-inf" ].
Proof. vm_compute. reflexivity. Qed.

Example to_float_known :
  map (fun v => result_map repr_float (to_float v))
    [ PyStr "16.84"; PyStr " 1e5 "; PyStr "1_000.5"; PyStr "-Infinity"; PyStr "NaN";
      PyStr ".5"; PyStr "5."; PyStr "1e400"; PyInt 3; PyBool true; PyFloat 0.0865;
      PyStr "abc"; PyStr "1e"; PyStr "1__0"; PyStr EmptyString; PyStr "1,5"; PyNone ] =
  [ Ok "16.84"; Ok "100000.0"; Ok "1000.5"; Ok "-inf"; Ok "nan";
    Ok "0.5"; Ok "5.0"; Ok "inf"; Ok "3.0"; Ok "1.0"; Ok "0.0865";
    Raise ValueError; Raise ValueError; Raise ValueError; Raise ValueError;
    Raise ValueError; Raise TypeError ].
Proof. vm_compute. reflexivity. Qed.

Example str_datetime_known :
  map str_datetime [ mk_datetime 1900 1 1 0 27 0 0; mk_datetime 2020 12 31 23 59 58 5 ] =
  [ "1900-01-01 00:27:00"; "2020-12-31 23:59:58.000005" ].
Proof. vm_compute. reflexivity. Qed.

Example cd_to_datetime_known :
  map helpers.cd_to_datetime
    [ PyStr "1900-01-01 00:27"; PyStr "2020-02-29 23:59"; PyStr "2021-02-29 23:59";
      PyStr "2020-Jan-01 12:00"; PyStr "1900-01-01 00:27:00"; PyStr "1900-01-01 24:00";
      PyNone ] =
  [ Ok (mk_datetime 1900 1 1 0 27 0 0); Ok (mk_datetime 2020 2 29 23 59 0 0);
    Raise DateParseError; Raise DateParseError; Raise DateParseError;
    Raise DateParseError; Raise DateParseError ].
Proof. vm_compute. reflexivity. Qed.

Example csv_row_known :
  csv.row_text [ PyStr "a,b"; PyNone; PyFloat 1.5; PyBool true; PyStr (dq "say 'hi'") ] =
  dq "'a,b',,1.5,True,'say ''hi'''" +:+ csv.lineterminator.
Proof. vm_compute. reflexivity. Qed.

Example iterencode_known :
  json.iterencode
    (json.PyList
       [ json.PyDict [ ("a", json.Atom (PyFloat 1.5)); ("b", json.PyList []) ];
         json.Atom PyNone; json.Atom (PyBool false); json.Atom (PyFloat nan);
         json.Atom (PyStr (dq "x'y")) ]) =
  (dq "[{'a': 1.5, 'b': []}, null, false, NaN, 'x\'y']", None).
Proof. vm_compute. reflexivity. Qed.

Example iterencode_stops_at_datetime :
  json.iterencode
    (json.PyList [ json.Atom (PyInt 3); json.Atom (PyDatetime (mk_datetime 1900 1 1 0 27 0 0)) ]) =
  ("[3, ", Some TypeError).
Proof. vm_compute. reflexivity. Qed.

(** ** Strings *)

Lemma append_cons (c : ascii) (s t : string) : String c s +:+ t = String c (s +:+ t).
Proof. reflexivity. Qed.

Lemma append_nil_l (s : string) : EmptyString +:+ s = s.
Proof. reflexivity. Qed.

Lemma append_nil_r (s : string) : s +:+ EmptyString = s.
Proof.
  induction s as [|c s IH]; [reflexivity | rewrite append_cons, IH; reflexivity].
Qed.

Lemma append_assoc (s t u : string) : (s +:+ t) +:+ u = s +:+ (t +:+ u).
Proof.
  induction s as [|c s IH]; [reflexivity | rewrite !append_cons, IH; reflexivity].
Qed.

Lemma length_append (s t : string) :
  String.length (s +:+ t) = (String.length s + String.length t)%nat.
Proof.
  induction s as [|c s IH]; [reflexivity |].
  rewrite append_cons. simpl. rewrite IH. reflexivity.
Qed.

Lemma append_neq_self (s t : string) : t <> EmptyString -> s +:+ t <> s.
Proof.
  intros Ht Heq. apply (f_equal String.length) in Heq.
  rewrite length_append in Heq. destruct t; [congruence | simpl in Heq; lia].
Qed.

(** ** Floats *)

Lemma SFcompare_self (x : spec_float) :
  SFcompare x x = match x with S754_nan => None | _ => Some Eq end.
Proof.
  destruct x as [s|s| |s m e]; simpl; try reflexivity.
  - destruct s; reflexivity.
  - rewrite Z.compare_refl, Pos.compare_cont_refl. destruct s; reflexivity.
Qed.

(** A float equals itself exactly when it is not the not-a-number. *)
Lemma eqb_self (f : float) : PrimFloat.eqb f f = negb (isnan f).
Proof.
  rewrite FloatAxioms.eqb_spec. unfold SFeqb, isnan. rewrite SFcompare_self.
  destruct (Prim2SF f); reflexivity.
Qed.

(** ** Running the monad *)

Lemma bind_ok {A B} (m : M A) (k : A -> M B) (w w' : world) (a : A) :
  m w = (Ok a, w') -> (m ≫= k) w = k a w'.
Proof. intros H. unfold mbind, M_bind. rewrite H. reflexivity. Qed.

Lemma bind_raise {A B} (m : M A) (k : A -> M B) (w w' : world) (e : exn) :
  m w = (Raise e, w') -> (m ≫= k) w = (Raise e, w').
Proof. intros H. unfold mbind, M_bind. rewrite H. reflexivity. Qed.

Lemma resolve_Some (h : gmap ref object) (o : ref) c n :
  resolve h o = Some (c, n) ->
  h !! o = Some (CA c) /\
  exists l, CloseApproach.neo c = Some l /\ h !! l = Some (NEO n).
Proof.
  unfold resolve. intros H.
  destruct (h !! o) as [[e|c']|] eqn:Ho; try discriminate.
  destruct (CloseApproach.neo c') as [l|] eqn:Hl; try discriminate.
  destruct (h !! l) as [[n'|c'']|] eqn:Hn; try discriminate.
  injection H as -> ->. split; [reflexivity | eauto].
Qed.

Lemma getattr_CloseApproach_resolved {A} (attr : CloseApproach.t -> A) w o c n :
  resolve (heap w) o = Some (c, n) ->
  getattr_CloseApproach attr o w = (Ok (attr c), w).
Proof.
  intros H. apply resolve_Some in H as [Ho _].
  unfold getattr_CloseApproach. rewrite Ho. reflexivity.
Qed.

Lemma neo_attr_resolved {A} (attr : NearEarthObject.t -> A) w o c n :
  resolve (heap w) o = Some (c, n) ->
  neo_attr attr o w = (Ok (attr n), w).
Proof.
  intros H. unfold neo_attr.
  erewrite bind_ok by (eapply getattr_CloseApproach_resolved; eassumption).
  apply resolve_Some in H as [_ (l & Hl & Hn)].
  unfold getattr_NearEarthObject. rewrite Hl, Hn. reflexivity.
Qed.

Ltac read_attrs H :=
  repeat first
    [ erewrite bind_ok by (apply (neo_attr_resolved _ _ _ _ _ H))
    | erewrite bind_ok by (apply (getattr_CloseApproach_resolved _ _ _ _ _ H)) ].

Lemma name_or_empty_run w o c n :
  resolve (heap w) o = Some (c, n) ->
  (if is_not_None (NearEarthObject.name n) then neo_attr NearEarthObject.name o
   else mret (PyStr EmptyString)) w =
  (Ok match NearEarthObject.name n with
      | PyNone => PyStr EmptyString
      | present => present
      end, w).
Proof.
  intros H. pose proof (neo_attr_resolved NearEarthObject.name _ _ _ _ H) as Hn.
  destruct (NearEarthObject.name n); simpl; first [reflexivity | exact Hn].
Qed.

Lemma diameter_or_empty_run w o c n :
  resolve (heap w) o = Some (c, n) ->
  (if PrimFloat.eqb (NearEarthObject.diameter n) (NearEarthObject.diameter n) then
     d ← neo_attr NearEarthObject.diameter o; mret (PyFloat d)
   else mret (PyStr EmptyString)) w =
  (Ok (if isnan (NearEarthObject.diameter n) then PyStr EmptyString
       else PyFloat (NearEarthObject.diameter n)), w).
Proof.
  intros H. rewrite eqb_self.
  destruct (isnan (NearEarthObject.diameter n)); simpl;
    [reflexivity | read_attrs H; reflexivity].
Qed.

Lemma csv_line_resolved w o c n :
  resolve (heap w) o = Some (c, n) ->
  write.csv_line o w = (Ok (spec.csv_line c n), w).
Proof.
  intros H. unfold write.csv_line, spec.csv_line.
  read_attrs H.
  erewrite bind_ok by (apply (name_or_empty_run _ _ _ _ H)).
  read_attrs H.
  erewrite bind_ok by (apply (diameter_or_empty_run _ _ _ _ H)).
  read_attrs H.
  reflexivity.
Qed.

Lemma json_obj_resolved w o c n :
  resolve (heap w) o = Some (c, n) ->
  write.json_obj o w = (Ok (spec.json_obj c n), w).
Proof.
  intros H. unfold write.json_obj, spec.json_obj.
  read_attrs H.
  erewrite bind_ok by (apply (name_or_empty_run _ _ _ _ H)).
  read_attrs H.
  destruct (truthy (NearEarthObject.hazardous n)); reflexivity.
Qed.

Lemma write_run (f s : string) (h : gmap ref object) (fs : gmap string string)
    (acc : string) :
  write f s (mk_world h (<[f := acc]> fs)) =
  (Ok tt, mk_world h (<[f := acc +:+ s]> fs)).
Proof.
  unfold write. simpl. rewrite lookup_insert_eq, insert_insert_eq. reflexivity.
Qed.

Lemma csv_loop_resolved (f : string) (h : gmap ref object) (fs : gmap string string) :
  forall results pairs acc,
    resolve_all h results = Some pairs ->
    for_each results (fun o => line ← write.csv_line o; writerow f line)
      (mk_world h (<[f := acc]> fs)) =
    (Ok tt, mk_world h (<[f := acc +:+ concat_strings (csv_rows pairs)]> fs)).
Proof.
  induction results as [|o rest IH]; intros pairs acc Hres; simpl in Hres.
  - injection Hres as <-. simpl. rewrite append_nil_r. reflexivity.
  - destruct (resolve h o) as [[c n]|] eqn:Ho; [|discriminate].
    destruct (resolve_all h rest) as [ps|] eqn:Hrest; [|discriminate].
    injection Hres as <-.
    cbn [for_each].
    erewrite bind_ok; cycle 1.
    { erewrite bind_ok by (apply csv_line_resolved; exact Ho).
      unfold writerow. apply write_run. }
    rewrite (IH ps _ eq_refl).
    cbn [csv_rows map concat_strings fst snd]. rewrite append_assoc. reflexivity.
Qed.

Lemma header_row : csv.row_text write.fieldnames = csv_header +:+ csv.lineterminator.
Proof. vm_compute. reflexivity. Qed.

Lemma write_to_csv_resolved w results filename pairs :
  resolve_all (heap w) results = Some pairs ->
  write.write_to_csv results filename w =
  (Ok tt,
   mk_world (heap w)
     (<[filename := csv_header +:+ csv.lineterminator +:+ concat_strings (csv_rows pairs)]>
        (files w))).
Proof.
  intros H. unfold write.write_to_csv.
  erewrite bind_ok by reflexivity.
  erewrite bind_ok by (unfold writerow; apply write_run).
  rewrite (csv_loop_resolved _ _ _ _ _ _ H).
  rewrite append_nil_l, header_row, append_assoc. reflexivity.
Qed.

Lemma collect_resolved (w : world) :
  forall results pairs top,
    resolve_all (heap w) results = Some pairs ->
    write.collect results top w =
    (Ok (top ++ map (fun p => spec.json_obj p.1 p.2) pairs), w).
Proof.
  induction results as [|o rest IH]; intros pairs top Hres; simpl in Hres.
  - injection Hres as <-. simpl. rewrite app_nil_r. reflexivity.
  - destruct (resolve (heap w) o) as [[c n]|] eqn:Ho; [|discriminate].
    destruct (resolve_all (heap w) rest) as [ps|] eqn:Hrest; [|discriminate].
    injection Hres as <-.
    cbn [write.collect].
    erewrite bind_ok by (apply json_obj_resolved; exact Ho).
    rewrite (IH ps _ eq_refl). cbn [map fst snd].
    rewrite <- app_assoc. reflexivity.
Qed.

Lemma json_dump_run obj f h fs :
  json_dump obj f (mk_world h (<[f := EmptyString]> fs)) =
  dumped obj f (mk_world h fs).
Proof.
  unfold json_dump, dumped. destruct (json.iterencode obj) as [s [e|]]; simpl.
  - erewrite bind_ok by apply write_run. reflexivity.
  - erewrite bind_ok by apply write_run. reflexivity.
Qed.

Lemma write_to_json_resolved w results filename pairs :
  resolve_all (heap w) results = Some pairs ->
  write.write_to_json results filename w =
  dumped (json.PyList (map (fun p => spec.json_obj p.1 p.2) pairs)) filename w.
Proof.
  intros H. unfold write.write_to_json.
  erewrite bind_ok by reflexivity.
  destruct results as [|o rest].
  - injection H as <-. simpl. destruct w. apply json_dump_run.
  - cbn [List.length Nat.eqb].
    erewrite bind_ok; cycle 1.
    { apply collect_resolved. exact H. }
    simpl. destruct w. apply json_dump_run.
Qed.

(** ** The writers only read the object store *)

Create HintDb frame.

Lemma preserves_ret {A} (a : A) : preserves_heap (mret a : M A).
Proof. intros w. reflexivity. Qed.

Lemma preserves_raise {A} (e : exn) : preserves_heap (raise e : M A).
Proof. intros w. reflexivity. Qed.

Lemma preserves_bind {A B} (m : M A) (k : A -> M B) :
  preserves_heap m -> (forall a, preserves_heap (k a)) -> preserves_heap (m ≫= k).
Proof.
  intros Hm Hk w. unfold mbind, M_bind. specialize (Hm w).
  destruct (m w) as [[a|e] w']; simpl in *; [rewrite Hk |]; exact Hm.
Qed.

Lemma preserves_getattr_CloseApproach {A} (attr : CloseApproach.t -> A) o :
  preserves_heap (getattr_CloseApproach attr o).
Proof.
  intros w. unfold getattr_CloseApproach.
  destruct (heap w !! o) as [[n|c]|]; reflexivity.
Qed.

Lemma preserves_getattr_NearEarthObject {A} (attr : NearEarthObject.t -> A) n :
  preserves_heap (getattr_NearEarthObject attr n).
Proof.
  intros w. unfold getattr_NearEarthObject.
  destruct n as [l|]; [destruct (heap w !! l) as [[n|c]|] |]; reflexivity.
Qed.

Lemma preserves_open_w filename : preserves_heap (open_w filename).
Proof. intros w. reflexivity. Qed.

Lemma preserves_write f s : preserves_heap (write f s).
Proof. intros w. reflexivity. Qed.

#[local] Hint Resolve preserves_ret preserves_raise preserves_bind
  preserves_getattr_CloseApproach preserves_getattr_NearEarthObject
  preserves_open_w preserves_write : frame.

Lemma preserves_neo_attr {A} (attr : NearEarthObject.t -> A) o :
  preserves_heap (neo_attr attr o).
Proof. unfold neo_attr. auto with frame. Qed.

Lemma preserves_writerow f row : preserves_heap (writerow f row).
Proof. unfold writerow. auto with frame. Qed.

Lemma preserves_json_dump obj f : preserves_heap (json_dump obj f).
Proof.
  unfold json_dump. destruct (json.iterencode obj) as [s [e|]]; auto with frame.
Qed.

Lemma preserves_if {A} (b : bool) (m1 m2 : M A) :
  preserves_heap m1 -> preserves_heap m2 -> preserves_heap (if b then m1 else m2).
Proof. destruct b; auto. Qed.

Lemma preserves_for_each {A} (xs : list A) (body : A -> M unit) :
  (forall x, preserves_heap (body x)) -> preserves_heap (for_each xs body).
Proof.
  intros Hbody. induction xs as [|x xs IH]; simpl; auto with frame.
Qed.

#[local] Hint Resolve preserves_neo_attr preserves_writerow preserves_json_dump
  preserves_if preserves_for_each : frame.

Lemma preserves_csv_line o : preserves_heap (write.csv_line o).
Proof. unfold write.csv_line. repeat (apply preserves_bind; [auto with frame | intros ?]). auto with frame. Qed.

Lemma preserves_json_obj o : preserves_heap (write.json_obj o).
Proof. unfold write.json_obj. repeat (apply preserves_bind; [auto with frame | intros ?]). auto with frame. Qed.

Lemma preserves_collect results : forall top, preserves_heap (write.collect results top).
Proof.
  induction results as [|o rest IH]; intros top; simpl.
  - auto with frame.
  - apply preserves_bind; [apply preserves_json_obj | intros obj; apply IH].
Qed.

Lemma preserves_write_to_csv results filename :
  preserves_heap (write.write_to_csv results filename).
Proof.
  unfold write.write_to_csv.
  apply preserves_bind; [auto with frame | intros f].
  apply preserves_bind; [auto with frame | intros _].
  apply preserves_for_each. intros o.
  apply preserves_bind; [apply preserves_csv_line | auto with frame].
Qed.

Lemma preserves_write_to_json results filename :
  preserves_heap (write.write_to_json results filename).
Proof.
  unfold write.write_to_json.
  apply preserves_bind; [auto with frame | intros f].
  apply preserves_if; [auto with frame |].
  apply preserves_bind; [apply preserves_collect | auto with frame].
Qed.

(** ** The end-to-end example *)

(** C1.  The NEO 433 Eros (diameter 16.84, not hazardous) linked to its
    approach of 1900-01-01 00:27 (distance 0.0865, velocity 16.75): on the
    one-element list of that approach [write_to_json] succeeds and leaves
    exactly the expected array in the file, whatever the store holds
    besides the two objects. *)
Theorem eros_json_output :
  forall (w : world) (a l : ref) (filename : string)
         (n : NearEarthObject.t) (c : CloseApproach.t) (linked : list ref),
    NearEarthObject.__init__ (PyStr "433") eros_info = Ok n ->
    CloseApproach.__init__ (PyStr "433") (PyStr "1900-01-01 00:27") eros_approach_info = Ok c ->
    heap w !! l = Some (NEO (set_approaches n linked)) ->
    heap w !! a = Some (CA (set_neo c (Some l))) ->
    write.write_to_json [a] filename w =
    (Ok tt, mk_world (heap w) (<[filename := eros_json]> (files w))).
Proof.
  intros w a l filename n c linked Hn Hc Hl Ha.
  assert (Hres : resolve_all (heap w) [a] =
                 Some [(set_neo c (Some l), set_approaches n linked)]).
  { simpl. unfold resolve. rewrite Ha. simpl. rewrite Hl. reflexivity. }
  rewrite (write_to_json_resolved _ _ _ _ Hres). unfold dumped.
  vm_compute in Hn. vm_compute in Hc.
  injection Hn as <-. injection Hc as <-.
  match goal with
  | |- context [json.iterencode ?o] =>
      assert (Henc : json.iterencode o = (eros_json, None)) by (vm_compute; reflexivity)
  end.
  rewrite Henc. reflexivity.
Qed.

Lemma eros_json_output_witness :
  let w := (eros_scenario empty_world).2 in
  exists n c,
    NearEarthObject.__init__ (PyStr "433") eros_info = Ok n /\
    CloseApproach.__init__ (PyStr "433") (PyStr "1900-01-01 00:27") eros_approach_info = Ok c /\
    (eros_scenario empty_world).1 = Ok 2%positive /\
    heap w !! 1%positive = Some (NEO (set_approaches n [2%positive])) /\
    heap w !! 2%positive = Some (CA (set_neo c (Some 1%positive))) /\
    write.write_to_json [2%positive] "out.json" w =
    (Ok tt, mk_world (heap w) (<["out.json" := eros_json]> (files w))).
Proof.
  intros w. eexists. eexists.
  split; [vm_compute; reflexivity |].
  split; [vm_compute; reflexivity |].
  split; [vm_compute; reflexivity |].
  split; [vm_compute; reflexivity |].
  split; [vm_compute; reflexivity |].
  eapply (eros_json_output w 2%positive 1%positive "out.json" _ _ [2%positive]);
    vm_compute; reflexivity.
Defined.

(** ** The CSV writer *)

Lemma resolve_all_Forall2 (h : gmap ref object) :
  forall results pairs,
    resolve_all h results = Some pairs ->
    Forall2 (fun o p => resolve h o = Some p) results pairs.
Proof.
  induction results as [|o rest IH]; intros pairs H; simpl in H.
  - injection H as <-. constructor.
  - destruct (resolve h o) as [p|] eqn:Ho; [|discriminate].
    destruct (resolve_all h rest) as [ps|] eqn:Hrest; [|discriminate].
    injection H as <-. constructor; [exact Ho | apply IH; reflexivity].
Qed.

(** C2.  For every sequence of linked approaches [write_to_csv] succeeds
    and the file holds the header, which is the seven field names joined
    by commas and has no line break in it, then the line terminator, then
    one data row per approach, in order: the row of the tuple [line] that
    the loop builds for that approach. *)
Theorem csv_header_then_one_row_per_approach :
  forall (w : world) (results : list ref) (filename : string)
         (pairs : list (CloseApproach.t * NearEarthObject.t)),
    resolve_all (heap w) results = Some pairs ->
    exists rows : list string,
      write.write_to_csv results filename w =
      (Ok tt,
       mk_world (heap w)
         (<[filename := csv_header +:+ csv.lineterminator +:+ concat_strings rows]>
            (files w))) /\
      csv_header = join "," (map csv.field_text write.fieldnames) /\
      List.length write.fieldnames = 7%nat /\
      contains_char (fun c => Ascii.eqb c CR || Ascii.eqb c LF) csv_header = false /\
      List.length rows = List.length results /\
      Forall2 (fun o row =>
                 exists line, write.csv_line o w = (Ok line, w) /\
                              row = csv.row_text line) results rows.
Proof.
  intros w results filename pairs H.
  exists (csv_rows pairs).
  split; [apply write_to_csv_resolved; exact H |].
  split; [vm_compute; reflexivity |].
  split; [reflexivity |].
  split; [vm_compute; reflexivity |].
  apply resolve_all_Forall2 in H.
  split.
  - unfold csv_rows. rewrite length_map. symmetry. eapply Forall2_length. exact H.
  - unfold csv_rows. induction H as [|o [c n] rest ps Ho _ IH]; simpl.
    + constructor.
    + constructor; [| exact IH].
      exists (spec.csv_line c n). split; [apply csv_line_resolved; exact Ho | reflexivity].
Qed.

Lemma csv_header_then_one_row_per_approach_witness :
  let w := (eros_scenario empty_world).2 in
  resolve_all (heap w) [2%positive; 2%positive] <> None /\
  exists rows : list string,
    (write.write_to_csv [2%positive; 2%positive] "out.csv" w).1 = Ok tt /\
    files (write.write_to_csv [2%positive; 2%positive] "out.csv" w).2 !! "out.csv" =
      Some (csv_header +:+ csv.lineterminator +:+ concat_strings rows) /\
    rows = [ "1900-01-01 00:27:00,0.0865,16.75,433,Eros,16.84,False" +:+ csv.lineterminator;
             "1900-01-01 00:27:00,0.0865,16.75,433,Eros,16.84,False" +:+ csv.lineterminator ].
Proof.
  intros w.
  destruct (resolve_all (heap w) [2%positive; 2%positive]) as [pairs|] eqn:Hres;
    [| vm_compute in Hres; discriminate].
  split; [discriminate |].
  destruct (csv_header_then_one_row_per_approach w _ "out.csv" pairs Hres)
    as (rows & Hrun & _ & _ & _ & _ & Hrows).
  exists rows. rewrite Hrun. simpl. rewrite lookup_insert_eq.
  split; [reflexivity |]. split; [reflexivity |].
  inversion Hrows as [|o1 r1 os1 rs1 (l1 & Hl1 & ->) Hrest1]; subst.
  inversion Hrest1 as [|o2 r2 os2 rs2 (l2 & Hl2 & ->) Hrest2]; subst.
  inversion Hrest2; subst.
  vm_compute in Hl1. vm_compute in Hl2.
  injection Hl1 as <-. injection Hl2 as <-.
  vm_compute. reflexivity.
Defined.

(** C3.  For every sequence of linked approaches the data rows of
    [write_to_csv] are, in order, the rows of these seven fields: the raw
    time, the stored distance and velocity, the designation key that the
    approach itself captured (the designation attribute of the NEO is not
    read), the name or the empty string when the NEO has none, the diameter
    or the empty string when it is the not-a-number, and the hazard flag. *)
Theorem csv_row_mapping :
  forall (w : world) (results : list ref) (filename : string)
         (pairs : list (CloseApproach.t * NearEarthObject.t)),
    resolve_all (heap w) results = Some pairs ->
    write.write_to_csv results filename w =
    (Ok tt,
     mk_world (heap w)
       (<[filename :=
            csv_header +:+ csv.lineterminator +:+
            concat_strings
              (map (fun p : CloseApproach.t * NearEarthObject.t =>
                      let (c, n) := p in
                      csv.row_text
                        [ PyDatetime (CloseApproach.time c);
                          PyFloat (CloseApproach.distance c);
                          PyFloat (CloseApproach.velocity c);
                          CloseApproach._designation c;
                          match NearEarthObject.name n with
                          | PyNone => PyStr EmptyString
                          | present => present
                          end;
                          if isnan (NearEarthObject.diameter n) then PyStr EmptyString
                          else PyFloat (NearEarthObject.diameter n);
                          NearEarthObject.hazardous n ])
                 pairs)]>
          (files w))).
Proof.
  intros w results filename pairs H.
  rewrite (write_to_csv_resolved _ _ _ _ H).
  unfold csv_rows.
  erewrite map_ext; [reflexivity |]. intros [c n]. reflexivity.
Qed.

Lemma csv_row_mapping_witness :
  let w :=
    mk_world
      (<[1%positive :=
           NEO (NearEarthObject.mk "2020 AB" PyNone nan (PyBool true) [2%positive])]>
         (<[2%positive :=
              CA (CloseApproach.mk (PyStr "2020 XY") (mk_datetime 2020 2 29 23 59 0 0)
                    0.5%float 0%float (Some 1%positive))]> ∅))
      ∅ in
  resolve_all (heap w) [2%positive] <> None /\
  files (write.write_to_csv [2%positive] "out.csv" w).2 !! "out.csv" =
  Some (csv_header +:+ csv.lineterminator +:+
        "2020-02-29 23:59:00,0.5,0.0,2020 XY,,,True" +:+ csv.lineterminator).
Proof.
  intros w. split; [vm_compute; discriminate |].
  erewrite (csv_row_mapping w [2%positive] "out.csv") by (vm_compute; reflexivity).
  vm_compute. reflexivity.
Defined.

(** ** The JSON writer *)

(** C5.  On an empty collection [write_to_json] succeeds and the file holds
    exactly the two characters of the empty array. *)
Theorem write_to_json_empty :
  forall (w : world) (filename : string),
    write.write_to_json [] filename w =
    (Ok tt, mk_world (heap w) (<[filename := "[]"]> (files w))) /\
    files (write.write_to_json [] filename w).2 !! filename = Some "[]".
Proof.
  intros w filename.
  assert (Hrun : write.write_to_json [] filename w =
                 (Ok tt, mk_world (heap w) (<[filename := "[]"]> (files w)))).
  { rewrite (write_to_json_resolved w [] filename [] eq_refl). reflexivity. }
  split; [exact Hrun |].
  rewrite Hrun. simpl. apply lookup_insert_eq.
Qed.

(** ** The renderings *)

(** C6.  The rendering of a NEO states the designation, then the name
    clause exactly when the name is not [None], then the diameter clause
    exactly when the diameter is not the not-a-number (the test of the code
    is that the value equals itself), then one of two different hazard
    clauses according to the truth value of [hazardous].  A NEO constructed
    without a diameter has no diameter clause. *)
Theorem neo_str_clauses :
  forall n : NearEarthObject.t,
    NearEarthObject.__str__ n =
      "A NearEarthObject with designation " +:+ NearEarthObject.designation n +:+ "." +:+
      spec.name_clause n +:+ spec.diameter_clause n +:+
      spec.hazard_clause (truthy (NearEarthObject.hazardous n)) /\
    PrimFloat.eqb (NearEarthObject.diameter n) (NearEarthObject.diameter n) =
      negb (isnan (NearEarthObject.diameter n)) /\
    spec.hazard_clause true <> spec.hazard_clause false /\
    (forall (designation : pyval) (info : kwargs),
        info !! "diameter" = None ->
        NearEarthObject.__init__ designation info = Ok n ->
        spec.diameter_clause n = EmptyString /\
        NearEarthObject.__str__ n =
          "A NearEarthObject with designation " +:+ NearEarthObject.designation n +:+ "." +:+
          spec.name_clause n +:+
          spec.hazard_clause (truthy (NearEarthObject.hazardous n))).
Proof.
  intros n.
  assert (Hstr : NearEarthObject.__str__ n =
                 "A NearEarthObject with designation " +:+ NearEarthObject.designation n +:+
                 "." +:+ spec.name_clause n +:+ spec.diameter_clause n +:+
                 spec.hazard_clause (truthy (NearEarthObject.hazardous n))).
  { unfold NearEarthObject.__str__, spec.name_clause, spec.diameter_clause,
      spec.hazard_clause.
    rewrite eqb_self.
    destruct (NearEarthObject.name n), (isnan (NearEarthObject.diameter n)),
      (truthy (NearEarthObject.hazardous n));
      simpl; rewrite ?append_assoc, ?append_nil_l, ?append_nil_r; reflexivity. }
  split; [exact Hstr |].
  split; [apply eqb_self |].
  split; [discriminate |].
  intros designation info Hinfo Hinit.
  assert (Hnan : spec.diameter_clause n = EmptyString).
  { unfold NearEarthObject.__init__ in Hinit. rewrite Hinfo in Hinit.
    destruct designation; try discriminate.
    simpl in Hinit. injection Hinit as <-. reflexivity. }
  split; [exact Hnan |].
  rewrite Hstr, Hnan. reflexivity.
Qed.

Lemma neo_str_clauses_witness :
  let info : kwargs := <["hazardous" := PyBool true]> ∅ in
  let n := NearEarthObject.mk "2020 AB" PyNone nan (PyBool true) [] in
  info !! "diameter" = None /\
  NearEarthObject.__init__ (PyStr "2020 AB") info = Ok n /\
  NearEarthObject.__str__ n =
    "A NearEarthObject with designation 2020 AB. It is endangering us all!".
Proof.
  intros info n.
  assert (H1 : info !! "diameter" = None) by (vm_compute; reflexivity).
  assert (H2 : NearEarthObject.__init__ (PyStr "2020 AB") info = Ok n)
    by (vm_compute; reflexivity).
  split; [exact H1 |]. split; [exact H2 |].
  destruct (neo_str_clauses n) as (_ & _ & _ & Hunset).
  destruct (Hunset _ _ H1 H2) as [_ ->].
  vm_compute. reflexivity.
Defined.

(** C7.  The rendering of a close approach appends the velocity clause and
    the distance clause only when the value is greater than 0.0, so an
    approach constructed with an explicit distance (or velocity) of 0.0
    renders as the one constructed without it. *)
Theorem approach_str_zero_as_omitted :
  (forall c : CloseApproach.t,
      CloseApproach.__str__ c =
        "A CloseApproach of " +:+ str (CloseApproach._designation c) +:+
        " that happened on " +:+ CloseApproach.time_str c +:+ "." +:+
        spec.velocity_clause c +:+ spec.distance_clause c) /\
  (forall (designation time : pyval) (info : kwargs),
      info !! "distance" = None ->
      result_map CloseApproach.__str__
        (CloseApproach.__init__ designation time (<["distance" := PyFloat 0]> info)) =
      result_map CloseApproach.__str__ (CloseApproach.__init__ designation time info)) /\
  (forall (designation time : pyval) (info : kwargs),
      info !! "velocity" = None ->
      result_map CloseApproach.__str__
        (CloseApproach.__init__ designation time (<["velocity" := PyFloat 0]> info)) =
      result_map CloseApproach.__str__ (CloseApproach.__init__ designation time info)).
Proof.
  split; [| split].
  - intros c. unfold CloseApproach.__str__, spec.velocity_clause, spec.distance_clause.
    destruct (PrimFloat.ltb 0 (CloseApproach.velocity c)),
      (PrimFloat.ltb 0 (CloseApproach.distance c));
      simpl; rewrite ?append_assoc, ?append_nil_l, ?append_nil_r; reflexivity.
  - intros designation time info H. unfold CloseApproach.__init__.
    rewrite lookup_insert_eq, lookup_insert_ne by discriminate. rewrite H. reflexivity.
  - intros designation time info H. unfold CloseApproach.__init__.
    rewrite lookup_insert_eq, lookup_insert_ne by discriminate. rewrite H. reflexivity.
Qed.

Lemma approach_str_zero_as_omitted_witness :
  result_map CloseApproach.__str__
    (CloseApproach.__init__ (PyStr "433") (PyStr "1900-01-01 00:27")
       (<["distance" := PyFloat 0]> (<["velocity" := PyFloat 16.75]> ∅))) =
  result_map CloseApproach.__str__
    (CloseApproach.__init__ (PyStr "433") (PyStr "1900-01-01 00:27")
       (<["velocity" := PyFloat 16.75]> ∅)) /\
  result_map CloseApproach.__str__
    (CloseApproach.__init__ (PyStr "433") (PyStr "1900-01-01 00:27")
       (<["velocity" := PyFloat 16.75]> ∅)) =
  Ok "A CloseApproach of 433 that happened on 1900-01-01 00:27. The velocity was 16.75".
Proof.
  split.
  - apply (proj1 (proj2 approach_str_zero_as_omitted)). vm_compute. reflexivity.
  - vm_compute. reflexivity.
Defined.

(** ** Construction *)

Lemma result_bind_ok {A B} (r : result A) (k : A -> result B) (b : B) :
  r ≫= k = Ok b -> exists a, r = Ok a /\ k a = Ok b.
Proof. destruct r as [a|e]; [eauto | discriminate]. Qed.

Lemma CloseApproach_init_ok designation time info c :
  CloseApproach.__init__ designation time info = Ok c ->
  helpers.cd_to_datetime time = Ok (CloseApproach.time c) /\
  match info !! "distance" with
  | Some v => to_float v
  | None => Ok 0%float
  end = Ok (CloseApproach.distance c) /\
  match info !! "velocity" with
  | Some v => to_float v
  | None => Ok 0%float
  end = Ok (CloseApproach.velocity c) /\
  CloseApproach._designation c = designation /\
  CloseApproach.neo c = None.
Proof.
  unfold CloseApproach.__init__. intros H.
  apply result_bind_ok in H as (t & Ht & H).
  apply result_bind_ok in H as (d & Hd & H).
  apply result_bind_ok in H as (v & Hv & H).
  injection H as <-. simpl. auto.
Qed.

Lemma NearEarthObject_init_ok designation info n :
  NearEarthObject.__init__ designation info = Ok n ->
  designation = PyStr (NearEarthObject.designation n) /\
  match info !! "diameter" with
  | Some v => to_float v
  | None => Ok nan
  end = Ok (NearEarthObject.diameter n) /\
  NearEarthObject.name n = default PyNone (info !! "name") /\
  NearEarthObject.hazardous n = default (PyBool false) (info !! "hazardous") /\
  NearEarthObject.approaches n = [].
Proof.
  unfold NearEarthObject.__init__. intros H.
  destruct designation as [| | | |pdes|]; try discriminate.
  apply result_bind_ok in H as (d & Hd & H).
  injection H as <-. simpl.
  split; [reflexivity |].
  split; [destruct (info !! "diameter"); exact Hd |].
  split; [destruct (info !! "name"); reflexivity |].
  split; [destruct (info !! "hazardous"); reflexivity | reflexivity].
Qed.

(** C8.  Construction fails at once on an error: when the date parser
    rejects the time string the construction of the approach raises that
    error, and a constructed approach always carries the parsed instant;
    when a supplied diameter, distance or velocity does not convert to a
    float the construction fails.  A numeric attribute of a constructed
    object is the conversion of the supplied value, and is the sentinel
    (0.0, or the not-a-number for the diameter) only when the key is
    absent. *)
Theorem construction_errors_fail :
  forall (designation time : pyval) (info : kwargs),
    (forall e, helpers.cd_to_datetime time = Raise e ->
               CloseApproach.__init__ designation time info = Raise e) /\
    (forall v, info !! "distance" = Some v -> is_ok (to_float v) = false ->
               is_ok (CloseApproach.__init__ designation time info) = false) /\
    (forall v, info !! "velocity" = Some v -> is_ok (to_float v) = false ->
               is_ok (CloseApproach.__init__ designation time info) = false) /\
    (forall v, info !! "diameter" = Some v -> is_ok (to_float v) = false ->
               is_ok (NearEarthObject.__init__ designation info) = false) /\
    (forall c, CloseApproach.__init__ designation time info = Ok c ->
               helpers.cd_to_datetime time = Ok (CloseApproach.time c) /\
               match info !! "distance" with
               | Some v => to_float v = Ok (CloseApproach.distance c)
               | None => CloseApproach.distance c = 0%float
               end /\
               match info !! "velocity" with
               | Some v => to_float v = Ok (CloseApproach.velocity c)
               | None => CloseApproach.velocity c = 0%float
               end) /\
    (forall n, NearEarthObject.__init__ designation info = Ok n ->
               match info !! "diameter" with
               | Some v => to_float v = Ok (NearEarthObject.diameter n)
               | None => isnan (NearEarthObject.diameter n) = true
               end).
Proof.
  intros designation time info.
  split; [| split; [| split; [| split; [| split]]]].
  - intros e He. unfold CloseApproach.__init__. rewrite He. reflexivity.
  - intros v Hv Hbad.
    destruct (CloseApproach.__init__ designation time info) as [c|e] eqn:Hinit;
      [| reflexivity].
    apply CloseApproach_init_ok in Hinit as (_ & Hd & _).
    rewrite Hv in Hd. rewrite Hd in Hbad. discriminate.
  - intros v Hv Hbad.
    destruct (CloseApproach.__init__ designation time info) as [c|e] eqn:Hinit;
      [| reflexivity].
    apply CloseApproach_init_ok in Hinit as (_ & _ & Hvel & _).
    rewrite Hv in Hvel. rewrite Hvel in Hbad. discriminate.
  - intros v Hv Hbad.
    destruct (NearEarthObject.__init__ designation info) as [n|e] eqn:Hinit;
      [| reflexivity].
    apply NearEarthObject_init_ok in Hinit as (_ & Hd & _).
    rewrite Hv in Hd. rewrite Hd in Hbad. discriminate.
  - intros c H. apply CloseApproach_init_ok in H as (Ht & Hd & Hv & _).
    split; [exact Ht |]. split.
    + destruct (info !! "distance"); [exact Hd | injection Hd as <-; reflexivity].
    + destruct (info !! "velocity"); [exact Hv | injection Hv as <-; reflexivity].
  - intros n H. apply NearEarthObject_init_ok in H as (_ & Hd & _).
    destruct (info !! "diameter"); [exact Hd | injection Hd as <-; reflexivity].
Qed.

Lemma construction_errors_fail_witness :
  CloseApproach.__init__ (PyStr "433") (PyStr "1900-02-30 00:27") ∅ = Raise DateParseError /\
  is_ok (CloseApproach.__init__ (PyStr "433") (PyStr "1900-01-01 00:27")
           (<["distance" := PyStr "near"]> ∅)) = false /\
  is_ok (CloseApproach.__init__ (PyStr "433") (PyStr "1900-01-01 00:27")
           (<["velocity" := PyNone]> ∅)) = false /\
  is_ok (NearEarthObject.__init__ (PyStr "433") (<["diameter" := PyStr "16,84"]> ∅)) = false.
Proof.
  split; [| split; [| split]].
  - apply (proj1 (construction_errors_fail (PyStr "433") (PyStr "1900-02-30 00:27") ∅)).
    vm_compute. reflexivity.
  - apply (proj1 (proj2 (construction_errors_fail (PyStr "433") (PyStr "1900-01-01 00:27")
                           (<["distance" := PyStr "near"]> ∅))) (PyStr "near"));
      vm_compute; reflexivity.
  - apply (proj1 (proj2 (proj2 (construction_errors_fail (PyStr "433")
                                  (PyStr "1900-01-01 00:27")
                                  (<["velocity" := PyNone]> ∅)))) PyNone);
      vm_compute; reflexivity.
  - apply (proj1 (proj2 (proj2 (proj2 (construction_errors_fail (PyStr "433") PyNone
                                         (<["diameter" := PyStr "16,84"]> ∅)))))
             (PyStr "16,84"));
      vm_compute; reflexivity.
Defined.

(** C10.  The constructor of a NEO asserts that the designation is a
    string: with any other designation it raises the assertion error,
    whatever the keyword arguments; with a string designation it succeeds
    as soon as the diameter, if one is supplied, converts to a float. *)
Theorem designation_must_be_str :
  forall (designation : pyval) (info : kwargs),
    (isinstance_str designation = false ->
     NearEarthObject.__init__ designation info = Raise AssertionError) /\
    (isinstance_str designation = true ->
     (forall v, info !! "diameter" = Some v -> is_ok (to_float v) = true) ->
     is_ok (NearEarthObject.__init__ designation info) = true).
Proof.
  intros designation info. split.
  - intros H. destruct designation; try discriminate; reflexivity.
  - intros H Hd. destruct designation as [| | | |pdes|]; try discriminate.
    unfold NearEarthObject.__init__.
    destruct (info !! "diameter") as [v|] eqn:Hv.
    + specialize (Hd v eq_refl). destruct (to_float v); [reflexivity | discriminate].
    + reflexivity.
Qed.

Lemma designation_must_be_str_witness :
  NearEarthObject.__init__ (PyInt 433) eros_info = Raise AssertionError /\
  is_ok (NearEarthObject.__init__ (PyStr "433") eros_info) = true.
Proof.
  split.
  - apply (proj1 (designation_must_be_str (PyInt 433) eros_info)). reflexivity.
  - apply (proj2 (designation_must_be_str (PyStr "433") eros_info)); [reflexivity |].
    intros v Hv. vm_compute in Hv. injection Hv as <-. reflexivity.
Defined.

(** ** The frame of the writers *)

(** C9.  Whatever the references, the output path and the world, and
    whether it succeeds or raises, neither writer changes the object store:
    every object, hence every attribute of every approach and of every NEO,
    is after the run what it was before. *)
Theorem writers_do_not_mutate :
  forall (results : list ref) (filename : string) (w : world),
    heap (write.write_to_csv results filename w).2 = heap w /\
    heap (write.write_to_json results filename w).2 = heap w /\
    (forall o : ref,
        heap (write.write_to_csv results filename w).2 !! o = heap w !! o /\
        heap (write.write_to_json results filename w).2 !! o = heap w !! o).
Proof.
  intros results filename w.
  pose proof (preserves_write_to_csv results filename w) as Hcsv.
  pose proof (preserves_write_to_json results filename w) as Hjson.
  split; [exact Hcsv |]. split; [exact Hjson |].
  intros o. rewrite Hcsv, Hjson. split; reflexivity.
Qed.

(** * Further properties *)

(** ** The format specifications and [repr] on known values *)

Example format_fixed_known :
  map (PyFormat.format_fixed 3) [ 16.84; 0.0865; 2.675; 0.0005; -0.0001; 1e21; nan; infinity ]%float =
  [ "16.840"; "0.086"; "2.675"; "0.001"; "-0.000"; "1000000000000000000000.000";
    "nan"; "inf" ] /\
  map (PyFormat.format_fixed 2) [ 0.0865; 16.75; 0.125; 0.375; 0 ]%float =
  [ "0.09"; "16.75"; "0.12"; "0.38"; "0.00" ].
Proof. split; vm_compute; reflexivity. Qed.

Example repr_known :
  map PyFormat.repr
    [ PyStr "Eros"; PyStr "it's"; PyStr (dq "say 'hi'"); PyStr (String (chr 9) "x");
      PyNone; PyBool true; PyFloat 16.84; PyDatetime (mk_datetime 1900 1 1 0 27 0 0) ] =
  [ "'Eros'"; dq "'it" +:+ "'s" +:+ dq "'"; "'say " +:+ dq "'hi'" +:+ "'";
    "'" +:+ String backslash "tx'"; "None"; "True"; "16.84";
    "datetime.datetime(1900, 1, 1, 0, 27)" ].
Proof. vm_compute. reflexivity. Qed.

(** ** The writers on approaches that are not linked *)

Lemma neo_attr_unresolved {A} (attr : NearEarthObject.t -> A) w o :
  resolve (heap w) o = None ->
  neo_attr attr o w = (Raise AttributeError, w).
Proof.
  unfold resolve, neo_attr, getattr_CloseApproach, getattr_NearEarthObject,
    mbind, M_bind.
  intros H.
  destruct (heap w !! o) as [[n|c]|]; try reflexivity.
  destruct (CloseApproach.neo c) as [l|]; [| reflexivity].
  destruct (heap w !! l) as [[n|c']|]; try reflexivity. discriminate.
Qed.

Lemma csv_line_unresolved w o :
  resolve (heap w) o = None ->
  write.csv_line o w = (Raise AttributeError, w).
Proof.
  intros H. unfold write.csv_line.
  apply bind_raise. apply neo_attr_unresolved. exact H.
Qed.

Lemma json_obj_unresolved w o :
  resolve (heap w) o = None ->
  write.json_obj o w = (Raise AttributeError, w).
Proof.
  intros H. unfold write.json_obj.
  apply bind_raise. apply neo_attr_unresolved. exact H.
Qed.

Lemma resolve_all_app (h : gmap ref object) (pre results : list ref) :
  resolve_all h (pre ++ results) =
  match resolve_all h pre, resolve_all h results with
  | Some ps, Some qs => Some (ps ++ qs)
  | _, _ => None
  end.
Proof.
  induction pre as [|o pre IH]; simpl.
  - destruct (resolve_all h results); reflexivity.
  - rewrite IH. destruct (resolve h o), (resolve_all h pre), (resolve_all h results);
      reflexivity.
Qed.

(** A sequence that does not resolve has a first reference that does not. *)
Lemma resolve_all_None (h : gmap ref object) (results : list ref) :
  resolve_all h results = None ->
  exists pre o post pairs,
    results = pre ++ o :: post /\
    resolve_all h pre = Some pairs /\
    resolve h o = None.
Proof.
  induction results as [|o rest IH]; simpl; [discriminate |].
  destruct (resolve h o) as [p|] eqn:Ho.
  - destruct (resolve_all h rest) as [ps|] eqn:Hrest; [discriminate |].
    intros _. destruct (IH eq_refl) as (pre & o' & post & pairs & -> & Hpre & Ho').
    exists (o :: pre), o', post, (p :: pairs). simpl. rewrite Ho, Hpre. auto.
  - intros _. exists [], o, rest, []. auto.
Qed.

Lemma csv_loop_stops (f : string) (h : gmap ref object) (fs : gmap string string) :
  forall pre pairs o post acc,
    resolve_all h pre = Some pairs ->
    resolve h o = None ->
    for_each (pre ++ o :: post) (fun o => line ← write.csv_line o; writerow f line)
      (mk_world h (<[f := acc]> fs)) =
    (Raise AttributeError,
     mk_world h (<[f := acc +:+ concat_strings (csv_rows pairs)]> fs)).
Proof.
  induction pre as [|o' pre IH]; intros pairs o post acc Hpre Ho; simpl in Hpre.
  - injection Hpre as <-. simpl. rewrite append_nil_r.
    apply bind_raise. apply bind_raise. apply csv_line_unresolved. exact Ho.
  - destruct (resolve h o') as [[c n]|] eqn:Ho'; [|discriminate].
    destruct (resolve_all h pre) as [ps|] eqn:Hps; [|discriminate].
    injection Hpre as <-.
    cbn [app for_each].
    erewrite bind_ok; cycle 1.
    { erewrite bind_ok by (apply csv_line_resolved; exact Ho').
      unfold writerow. apply write_run. }
    rewrite (IH ps o post _ eq_refl Ho).
    cbn [csv_rows map concat_strings fst snd]. rewrite append_assoc. reflexivity.
Qed.

(** X1.  When some approach of the sequence is not linked to a NEO (or the
    reference is not an approach at all), [write_to_csv] raises
    [AttributeError] at the first such reference; the file then holds the
    header and the rows of the approaches before it, and nothing after. *)
Theorem write_to_csv_stops_at_unlinked :
  forall (w : world) (pre post : list ref) (o : ref) (filename : string)
         (pairs : list (CloseApproach.t * NearEarthObject.t)),
    resolve_all (heap w) pre = Some pairs ->
    resolve (heap w) o = None ->
    write.write_to_csv (pre ++ o :: post) filename w =
    (Raise AttributeError,
     mk_world (heap w)
       (<[filename := csv_header +:+ csv.lineterminator +:+ concat_strings (csv_rows pairs)]>
          (files w))).
Proof.
  intros w pre post o filename pairs Hpre Ho. unfold write.write_to_csv.
  erewrite bind_ok by reflexivity.
  erewrite bind_ok by (unfold writerow; apply write_run).
  rewrite (csv_loop_stops _ _ _ _ _ _ _ _ Hpre Ho).
  rewrite append_nil_l, header_row, append_assoc. reflexivity.
Qed.

Lemma collect_unresolved (w : world) :
  forall results top,
    resolve_all (heap w) results = None ->
    write.collect results top w = (Raise AttributeError, w).
Proof.
  induction results as [|o rest IH]; intros top H; simpl in H; [discriminate |].
  cbn [write.collect].
  destruct (resolve (heap w) o) as [[c n]|] eqn:Ho.
  - erewrite bind_ok by (apply json_obj_resolved; exact Ho).
    apply IH. destruct (resolve_all (heap w) rest); [discriminate | reflexivity].
  - apply bind_raise. apply json_obj_unresolved. exact Ho.
Qed.

(** X2.  When some approach of the sequence is not linked, [write_to_json]
    raises [AttributeError] and writes nothing: the file has been created
    or truncated and is left empty, wherever the unlinked approach stands
    in the sequence. *)
Theorem write_to_json_unlinked_leaves_empty_file :
  forall (w : world) (results : list ref) (filename : string),
    resolve_all (heap w) results = None ->
    write.write_to_json results filename w =
    (Raise AttributeError,
     mk_world (heap w) (<[filename := EmptyString]> (files w))).
Proof.
  intros w results filename H. unfold write.write_to_json.
  erewrite bind_ok by reflexivity.
  destruct results as [|o rest]; [discriminate |].
  cbn [List.length Nat.eqb].
  apply bind_raise. apply collect_unresolved. exact H.
Qed.

Lemma write_to_csv_stops_at_unlinked_witness :
  resolve_all (heap sample_world) [2%positive] = Some [(sample_linked, sample_neo)] /\
  resolve (heap sample_world) 3%positive = None /\
  write.write_to_csv [2%positive; 3%positive; 2%positive] "out.csv" sample_world =
  (Raise AttributeError,
   mk_world (heap sample_world)
     (<["out.csv" := csv_header +:+ csv.lineterminator +:+
                     "2020-02-29 23:59:00,0.5,0.0,2020 AB,,,N" +:+ csv.lineterminator]>
        (files sample_world))).
Proof.
  assert (H1 : resolve_all (heap sample_world) [2%positive] =
               Some [(sample_linked, sample_neo)]) by (vm_compute; reflexivity).
  assert (H2 : resolve (heap sample_world) 3%positive = None) by (vm_compute; reflexivity).
  split; [exact H1 |]. split; [exact H2 |].
  refine (eq_trans (write_to_csv_stops_at_unlinked sample_world [2%positive] [2%positive]
                      3%positive "out.csv" _ H1 H2) _).
  vm_compute. reflexivity.
Defined.

Lemma write_to_json_unlinked_leaves_empty_file_witness :
  resolve_all (heap sample_world) [2%positive; 3%positive] = None /\
  write.write_to_json [2%positive; 3%positive] "out.json" sample_world =
  (Raise AttributeError,
   mk_world (heap sample_world) (<["out.json" := EmptyString]> (files sample_world))).
Proof.
  assert (H : resolve_all (heap sample_world) [2%positive; 3%positive] = None)
    by (vm_compute; reflexivity).
  split; [exact H |].
  exact (write_to_json_unlinked_leaves_empty_file sample_world _ "out.json" H).
Defined.

(** ** The writers and the file system *)

(** Every run of [write_to_csv] ends in the world it started from with one
    file replaced. *)
Lemma write_to_csv_outcome (w : world) (results : list ref) (filename : string) :
  exists r content,
    forall fs,
      write.write_to_csv results filename (mk_world (heap w) fs) =
      (r, mk_world (heap w) (<[filename := content]> fs)).
Proof.
  destruct (resolve_all (heap w) results) as [pairs|] eqn:Hres.
  - eexists. eexists. intros fs.
    apply (write_to_csv_resolved (mk_world (heap w) fs)). exact Hres.
  - destruct (resolve_all_None _ _ Hres) as (pre & o & post & pairs & -> & Hpre & Ho).
    eexists. eexists. intros fs.
    apply (write_to_csv_stops_at_unlinked (mk_world (heap w) fs) _ _ _ _ pairs);
      assumption.
Qed.

Lemma write_to_json_outcome (w : world) (results : list ref) (filename : string) :
  exists r content,
    forall fs,
      write.write_to_json results filename (mk_world (heap w) fs) =
      (r, mk_world (heap w) (<[filename := content]> fs)).
Proof.
  destruct (resolve_all (heap w) results) as [pairs|] eqn:Hres.
  - eexists. eexists. intros fs.
    rewrite (write_to_json_resolved (mk_world (heap w) fs) _ _ _ Hres).
    unfold dumped. reflexivity.
  - eexists. eexists. intros fs.
    apply (write_to_json_unlinked_leaves_empty_file (mk_world (heap w) fs)). exact Hres.
Qed.

(** X4.  A writer replaces the file: whatever the file held before, the
    run has the same result and leaves the same world.  This holds for every
    sequence of references, also when the run raises. *)
Theorem writers_replace_the_file :
  forall (results : list ref) (filename : string) (w : world) (previous : string),
    write.write_to_csv results filename
      (mk_world (heap w) (<[filename := previous]> (files w))) =
    write.write_to_csv results filename w /\
    write.write_to_json results filename
      (mk_world (heap w) (<[filename := previous]> (files w))) =
    write.write_to_json results filename w.
Proof.
  intros results filename [h fs] previous.
  destruct (write_to_csv_outcome (mk_world h fs) results filename) as (r1 & c1 & H1).
  destruct (write_to_json_outcome (mk_world h fs) results filename) as (r2 & c2 & H2).
  simpl in H1, H2. simpl.
  rewrite !H1, !H2, !insert_insert_eq. split; reflexivity.
Qed.

(** ** The text of the JSON file *)

Lemma andthen_emit (s : string) (c : json.chunks) :
  json.andthen (json.emit s) c = (s +:+ c.1, c.2).
Proof. destruct c as [t e]. reflexivity. Qed.

Lemma iterencode_list_cons (x : json.pyobj) (rest : list json.pyobj) :
  json.iterencode (json.PyList (x :: rest)) =
  json.andthen (json.emit "[") (json.andthen (json.iterencode x) (list_tail rest)).
Proof.
  reflexivity.
Qed.

Lemma iterencode_scalar (v : pyval) :
  json_scalar v = true ->
  json.iterencode (json.Atom v) = (json_scalar_text v, None).
Proof. destruct v; intros H; try discriminate; reflexivity. Qed.

Lemma iterencode_json_obj (c : CloseApproach.t) (n : NearEarthObject.t) :
  json_scalar (NearEarthObject.name n) = true ->
  json.iterencode (spec.json_obj c n) = (json_obj_text (c, n), None).
Proof.
  intros Hname. unfold spec.json_obj, json_obj_text.
  destruct (NearEarthObject.name n) eqn:E; try discriminate;
    cbn -[json.encode_string json.encode_float str_int helpers.datetime_to_str];
    rewrite !append_assoc; reflexivity.
Qed.

Lemma list_tail_json_obj (pairs : list (CloseApproach.t * NearEarthObject.t)) :
  Forall (fun p => json_scalar (NearEarthObject.name p.2) = true) pairs ->
  list_tail (map (fun p => spec.json_obj p.1 p.2) pairs) =
  (concat_strings (map (fun p => ", " +:+ json_obj_text p) pairs) +:+ "]", None).
Proof.
  induction 1 as [|[c n] ps Hp _ IH]; [reflexivity |].
  cbn [map list_tail fst snd concat_strings].
  rewrite (iterencode_json_obj c n Hp), IH.
  cbn [json.andthen json.emit]. rewrite !append_assoc. reflexivity.
Qed.

Lemma join_comma_cons (t : string) (ts : list string) :
  join ", " (t :: ts) = t +:+ concat_strings (map (fun s => ", " +:+ s) ts).
Proof.
  revert t. induction ts as [|u ts IH]; intros t.
  - simpl. rewrite append_nil_r. reflexivity.
  - change (join ", " (t :: u :: ts)) with (t +:+ ", " +:+ join ", " (u :: ts)).
    rewrite IH. cbn [map concat_strings]. rewrite !append_assoc. reflexivity.
Qed.

Lemma iterencode_json_objs (pairs : list (CloseApproach.t * NearEarthObject.t)) :
  Forall (fun p => json_scalar (NearEarthObject.name p.2) = true) pairs ->
  json.iterencode (json.PyList (map (fun p => spec.json_obj p.1 p.2) pairs)) =
  (json_text pairs, None).
Proof.
  intros H. destruct H as [|[c n] ps Hp Hps]; [reflexivity |].
  cbn [map fst snd]. rewrite iterencode_list_cons.
  rewrite (iterencode_json_obj c n Hp), (list_tail_json_obj ps Hps).
  cbn [json.andthen json.emit]. unfold json_text. cbn [map].
  rewrite join_comma_cons, map_map, !append_assoc. reflexivity.
Qed.

(** X5.  For linked approaches whose NEOs have a name the encoder accepts
    (none, or a string, a number or a boolean), [write_to_json] succeeds
    and the file holds an opening bracket, the objects of the approaches in
    order separated by a comma and a space, and a closing bracket; each
    object has the keys datetime_utc, distance_au, velocity_km_s and neo,
    and neo the keys designation, name, diameter_km and
    potentially_hazardous, in this order.  An absent name is written as the
    empty string, the hazard flag as a JSON boolean. *)
Theorem write_to_json_text :
  forall (w : world) (results : list ref) (filename : string)
         (pairs : list (CloseApproach.t * NearEarthObject.t)),
    resolve_all (heap w) results = Some pairs ->
    Forall (fun p => json_scalar (NearEarthObject.name p.2) = true) pairs ->
    write.write_to_json results filename w =
    (Ok tt, mk_world (heap w) (<[filename := json_text pairs]> (files w))).
Proof.
  intros w results filename pairs Hres Hnames.
  rewrite (write_to_json_resolved _ _ _ _ Hres). unfold dumped.
  rewrite (iterencode_json_objs pairs Hnames). reflexivity.
Qed.

Lemma write_to_json_text_witness :
  resolve_all (heap sample_world) [2%positive; 2%positive] =
    Some [(sample_linked, sample_neo); (sample_linked, sample_neo)] /\
  write.write_to_json [2%positive; 2%positive] "out.json" sample_world =
  (Ok tt,
   mk_world (heap sample_world)
     (<["out.json" :=
          dq ("[{'datetime_utc': '2020-02-29 23:59', 'distance_au': 0.5, " +:+
              "'velocity_km_s': 0.0, 'neo': {'designation': '2020 AB', 'name': '', " +:+
              "'diameter_km': NaN, 'potentially_hazardous': true}}, " +:+
              "{'datetime_utc': '2020-02-29 23:59', 'distance_au': 0.5, " +:+
              "'velocity_km_s': 0.0, 'neo': {'designation': '2020 AB', 'name': '', " +:+
              "'diameter_km': NaN, 'potentially_hazardous': true}}]")]>
        (files sample_world))).
Proof.
  assert (H : resolve_all (heap sample_world) [2%positive; 2%positive] =
              Some [(sample_linked, sample_neo); (sample_linked, sample_neo)])
    by (vm_compute; reflexivity).
  split; [exact H |].
  refine (eq_trans (write_to_json_text sample_world _ "out.json" _ H _) _).
  - repeat constructor.
  - vm_compute. reflexivity.
Defined.

(** ** Sentinels and truth values in the two files *)


Lemma isnan_nan (f : float) : isnan f = true -> f = nan.
Proof.
  unfold isnan. intros H. rewrite <- (FloatAxioms.SF2Prim_Prim2SF f).
  destruct (Prim2SF f); try discriminate. reflexivity.
Qed.





(** ** The constructors *)

(** X9.  Both constructors read only the keyword arguments they know: an
    argument under any other key that can be passed by keyword (a key that
    does not name a parameter of the constructor) changes neither the
    object constructed nor the error raised. *)
Theorem constructors_ignore_other_keys :
  forall (designation time : pyval) (info : kwargs) (k : string) (v : pyval),
    (k <> "self" -> k <> "designation" ->
     k <> "name" -> k <> "diameter" -> k <> "hazardous" ->
     NearEarthObject.__init__ designation (<[k := v]> info) =
     NearEarthObject.__init__ designation info) /\
    (k <> "self" -> k <> "designation" -> k <> "time" ->
     k <> "distance" -> k <> "velocity" ->
     CloseApproach.__init__ designation time (<[k := v]> info) =
     CloseApproach.__init__ designation time info).
Proof.
  intros designation time info k v. split.
  - intros _ _ H1 H2 H3. unfold NearEarthObject.__init__.
    rewrite !lookup_insert_ne by congruence. reflexivity.
  - intros _ _ _ H1 H2. unfold CloseApproach.__init__.
    rewrite !lookup_insert_ne by congruence. reflexivity.
Qed.

(** X10.  Passing a default explicitly is the same as leaving the argument
    out: a NEO constructed with a name of [None], with a hazard flag of
    [False], or with a diameter that converts to the not-a-number (the
    float itself or the string nan) equals the NEO constructed without that
    argument, so an unknown diameter cannot be told from a supplied
    not-a-number. *)
Theorem NearEarthObject_explicit_defaults :
  forall (designation : pyval) (info : kwargs),
    (info !! "name" = None ->
     NearEarthObject.__init__ designation (<["name" := PyNone]> info) =
     NearEarthObject.__init__ designation info) /\
    (info !! "hazardous" = None ->
     NearEarthObject.__init__ designation (<["hazardous" := PyBool false]> info) =
     NearEarthObject.__init__ designation info) /\
    (info !! "diameter" = None ->
     forall (v : pyval) (f : float),
       to_float v = Ok f -> isnan f = true ->
       NearEarthObject.__init__ designation (<["diameter" := v]> info) =
       NearEarthObject.__init__ designation info).
Proof.
  intros designation info. split; [| split].
  - intros H. unfold NearEarthObject.__init__.
    rewrite lookup_insert_eq, !lookup_insert_ne by discriminate. rewrite H. reflexivity.
  - intros H. unfold NearEarthObject.__init__.
    rewrite lookup_insert_eq, !lookup_insert_ne by discriminate. rewrite H. reflexivity.
  - intros H v f Hv Hnan. unfold NearEarthObject.__init__.
    rewrite lookup_insert_eq, !lookup_insert_ne by discriminate. rewrite H, Hv.
    rewrite (isnan_nan f Hnan). reflexivity.
Qed.

(** X11.  The constructor of a close approach succeeds exactly when the date
    parser accepts the time and each of distance and velocity is absent or
    converts to a float.  The designation plays no part: it is stored as
    given, whatever its type, and the approach starts with no NEO. *)
Theorem CloseApproach_init_succeeds_iff :
  forall (designation time : pyval) (info : kwargs),
    is_ok (CloseApproach.__init__ designation time info) =
      is_ok (helpers.cd_to_datetime time) &&
      converts (info !! "distance") && converts (info !! "velocity") /\
    (forall c, CloseApproach.__init__ designation time info = Ok c ->
               CloseApproach._designation c = designation /\
               CloseApproach.neo c = None).
Proof.
  intros designation time info. split.
  - unfold CloseApproach.__init__, converts.
    destruct (helpers.cd_to_datetime time) as [t|e]; [| reflexivity].
    destruct (info !! "distance") as [d|], (info !! "velocity") as [v|]; simpl;
      repeat match goal with
             | |- context [to_float ?x] => destruct (to_float x); simpl
             end; reflexivity.
  - intros c H. apply CloseApproach_init_ok in H as (_ & _ & _ & Hd & Hn). auto.
Qed.

(** X12.  A failed construction raises the error of its first failing step,
    unchanged.  For a close approach the time is parsed first: an error of
    the date parser is the error raised, whatever the other arguments are;
    then the distance is converted, and its error is raised whatever the
    velocity is; then the velocity.  For a NEO the designation is checked
    first: a designation that is not a string raises the assertion error
    whatever the diameter is, and with a string designation a diameter that
    does not convert raises the error of the conversion. *)
Theorem construction_raises_first_error :
  forall (designation time : pyval) (info : kwargs),
    (forall e, helpers.cd_to_datetime time = Raise e ->
               CloseApproach.__init__ designation time info = Raise e) /\
    (forall v e, is_ok (helpers.cd_to_datetime time) = true ->
                 info !! "distance" = Some v -> to_float v = Raise e ->
                 CloseApproach.__init__ designation time info = Raise e) /\
    (forall v e, is_ok (helpers.cd_to_datetime time) = true ->
                 converts (info !! "distance") = true ->
                 info !! "velocity" = Some v -> to_float v = Raise e ->
                 CloseApproach.__init__ designation time info = Raise e) /\
    (isinstance_str designation = false ->
     NearEarthObject.__init__ designation info = Raise AssertionError) /\
    (forall v e, isinstance_str designation = true ->
                 info !! "diameter" = Some v -> to_float v = Raise e ->
                 NearEarthObject.__init__ designation info = Raise e).
Proof.
  intros designation time info. split; [| split; [| split; [| split]]].
  - intros e He. unfold CloseApproach.__init__. rewrite He. reflexivity.
  - intros v e Ht Hd Hv. unfold CloseApproach.__init__.
    destruct (helpers.cd_to_datetime time); [| discriminate].
    rewrite Hd. simpl. rewrite Hv. reflexivity.
  - intros v e Ht Hd Hvel Hv. unfold CloseApproach.__init__, converts in *.
    destruct (helpers.cd_to_datetime time); [| discriminate].
    rewrite Hvel. simpl.
    destruct (info !! "distance") as [d|]; simpl.
    + destruct (to_float d); [| discriminate]. simpl. rewrite Hv. reflexivity.
    + rewrite Hv. reflexivity.
  - intros Hs. destruct designation; try discriminate; reflexivity.
  - intros v e Hs Hd Hv. destruct designation; try discriminate.
    unfold NearEarthObject.__init__. rewrite Hd, Hv. reflexivity.
Qed.

(** ** Names and renderings *)

(** X13.  The full name of a constructed NEO is its designation when no name
    (or a name of [None]) was supplied, the designation, a comma, a space
    and the name when the name is a string, and a [TypeError] for a name of
    any other type, which the constructor accepts. *)
Theorem fullname_of_constructed :
  forall (pdes : string) (info : kwargs) (n : NearEarthObject.t),
    NearEarthObject.__init__ (PyStr pdes) info = Ok n ->
    NearEarthObject.fullname n =
    match info !! "name" with
    | None | Some PyNone => Ok pdes
    | Some (PyStr s) => Ok (pdes +:+ ", " +:+ s)
    | Some _ => Raise TypeError
    end.
Proof.
  intros pdes info n H.
  apply NearEarthObject_init_ok in H as (Hd & _ & Hname & _).
  injection Hd as ->. unfold NearEarthObject.fullname. rewrite Hname.
  destruct (info !! "name") as [[]|]; reflexivity.
Qed.

(** X14.  The machine-readable rendering of a NEO constructed from its
    designation alone shows the defaults: no name, the not-a-number as
    diameter and a hazard flag of [False]. *)
Theorem repr_of_bare_NearEarthObject :
  forall (pdes : string) (info : kwargs) (n : NearEarthObject.t),
    NearEarthObject.__init__ (PyStr pdes) info = Ok n ->
    info !! "name" = None ->
    info !! "diameter" = None ->
    info !! "hazardous" = None ->
    NearEarthObject.__repr__ n =
    "NearEarthObject(designation=" +:+ PyFormat.repr_str pdes +:+
    ", name=None, diameter=nan, hazardous=False)".
Proof.
  intros pdes info n H Hname Hdia Hhaz.
  apply NearEarthObject_init_ok in H as (Hd & Hdiam & Hn & Hh & _).
  rewrite Hdia in Hdiam. injection Hdiam as Hdiam. injection Hd as ->.
  unfold NearEarthObject.__repr__. rewrite Hn, Hh, <- Hdiam, Hname, Hhaz.
  reflexivity.
Qed.

(** X15.  A linked approach renders with the rendering of its NEO in place:
    one level of nesting is enough whatever the store holds, because the
    rendering of a NEO does not go into its approaches.  An approach
    without a NEO renders it as [None]. *)
Theorem repr_of_approach_in_store :
  forall (h : gmap ref object) (o : ref) (c : CloseApproach.t) (fuel : nat),
    h !! o = Some (CA c) ->
    (forall n, resolve h o = Some (c, n) ->
       repr_object (S fuel) h (Some o) =
       Some (CloseApproach.__repr__ (NearEarthObject.__repr__ n) c)) /\
    (CloseApproach.neo c = None ->
       repr_object (S fuel) h (Some o) = Some (CloseApproach.__repr__ "None" c)).
Proof.
  intros h o c fuel Ho. split.
  - intros n H. apply resolve_Some in H as (_ & l & Hl & Hn).
    cbn [repr_object]. rewrite Ho, Hl.
    destruct fuel; cbn [repr_object]; rewrite Hn; reflexivity.
  - intros Hnone. cbn [repr_object]. rewrite Ho, Hnone.
    destruct fuel; reflexivity.
Qed.

Lemma constructors_ignore_other_keys_witness :
  NearEarthObject.__init__ (PyStr "433") (<["orbit_id" := PyInt 659]> eros_info) =
    NearEarthObject.__init__ (PyStr "433") eros_info /\
  CloseApproach.__init__ (PyStr "433") (PyStr "1900-01-01 00:27")
    (<["orbit_id" := PyInt 659]> eros_approach_info) =
    CloseApproach.__init__ (PyStr "433") (PyStr "1900-01-01 00:27") eros_approach_info.
Proof.
  split.
  - apply (proj1 (constructors_ignore_other_keys (PyStr "433") PyNone eros_info
                    "orbit_id" (PyInt 659))); discriminate.
  - apply (proj2 (constructors_ignore_other_keys (PyStr "433") (PyStr "1900-01-01 00:27")
                    eros_approach_info "orbit_id" (PyInt 659))); discriminate.
Defined.

Lemma NearEarthObject_explicit_defaults_witness :
  NearEarthObject.__init__ (PyStr "433") (<["name" := PyNone]> ∅) =
    NearEarthObject.__init__ (PyStr "433") ∅ /\
  NearEarthObject.__init__ (PyStr "433") (<["hazardous" := PyBool false]> ∅) =
    NearEarthObject.__init__ (PyStr "433") ∅ /\
  NearEarthObject.__init__ (PyStr "433") (<["diameter" := PyStr "NaN"]> ∅) =
    NearEarthObject.__init__ (PyStr "433") ∅.
Proof.
  pose proof (NearEarthObject_explicit_defaults (PyStr "433") ∅) as (H1 & H2 & H3).
  split; [apply H1; reflexivity |]. split; [apply H2; reflexivity |].
  apply (H3 eq_refl (PyStr "NaN") nan); vm_compute; reflexivity.
Defined.

Lemma CloseApproach_init_succeeds_iff_witness :
  exists c,
    CloseApproach.__init__ PyNone (PyStr "1900-01-01 00:27") eros_approach_info = Ok c /\
    CloseApproach._designation c = PyNone /\
    CloseApproach.neo c = None.
Proof.
  eexists. split; [vm_compute; reflexivity |].
  apply (proj2 (CloseApproach_init_succeeds_iff PyNone (PyStr "1900-01-01 00:27")
                  eros_approach_info)).
  vm_compute. reflexivity.
Defined.

Lemma construction_raises_first_error_witness :
  CloseApproach.__init__ (PyStr "433") (PyStr "1900-02-30 00:27")
    (<["distance" := PyStr "near"]> (<["velocity" := PyNone]> ∅)) = Raise DateParseError /\
  CloseApproach.__init__ (PyStr "433") (PyStr "1900-01-01 00:27")
    (<["distance" := PyStr "near"]> (<["velocity" := PyNone]> ∅)) = Raise ValueError /\
  CloseApproach.__init__ (PyStr "433") (PyStr "1900-01-01 00:27")
    (<["distance" := PyStr "0.0865"]> (<["velocity" := PyNone]> ∅)) = Raise TypeError /\
  NearEarthObject.__init__ (PyInt 433) (<["diameter" := PyStr "wide"]> ∅) =
    Raise AssertionError /\
  NearEarthObject.__init__ (PyStr "433") (<["diameter" := PyInt (2 ^ 1024)]> ∅) =
    Raise OverflowError.
Proof.
  split; [| split; [| split; [| split]]].
  - refine (proj1 (construction_raises_first_error (PyStr "433") (PyStr "1900-02-30 00:27")
                     _) DateParseError _).
    vm_compute. reflexivity.
  - refine (proj1 (proj2 (construction_raises_first_error (PyStr "433")
                            (PyStr "1900-01-01 00:27") _))
              (PyStr "near") ValueError _ _ _); vm_compute; reflexivity.
  - refine (proj1 (proj2 (proj2 (construction_raises_first_error (PyStr "433")
                                   (PyStr "1900-01-01 00:27") _)))
              PyNone TypeError _ _ _ _); vm_compute; reflexivity.
  - refine (proj1 (proj2 (proj2 (proj2 (construction_raises_first_error (PyInt 433) PyNone
                                          _)))) _).
    reflexivity.
  - refine (proj2 (proj2 (proj2 (proj2 (construction_raises_first_error (PyStr "433") PyNone
                                          _))))
              (PyInt (2 ^ 1024)) OverflowError _ _ _); vm_compute; reflexivity.
Defined.

Lemma fullname_of_constructed_witness :
  exists n,
    NearEarthObject.__init__ (PyStr "433") eros_info = Ok n /\
    NearEarthObject.fullname n = Ok "433, Eros".
Proof.
  eexists. split; [vm_compute; reflexivity |].
  refine (eq_trans (fullname_of_constructed "433" eros_info _ _) _);
    vm_compute; reflexivity.
Defined.

Lemma repr_of_bare_NearEarthObject_witness :
  exists n,
    NearEarthObject.__init__ (PyStr "it's") ∅ = Ok n /\
    NearEarthObject.__repr__ n =
      dq "NearEarthObject(designation='it" +:+ "'s" +:+
      dq "', name=None, diameter=nan, hazardous=False)".
Proof.
  eexists. split; [vm_compute; reflexivity |].
  refine (eq_trans (repr_of_bare_NearEarthObject "it's" ∅ _ _ _ _ _) _);
    vm_compute; reflexivity.
Defined.

Lemma repr_of_approach_in_store_witness :
  heap sample_world !! 2%positive = Some (CA sample_linked) /\
  resolve (heap sample_world) 2%positive = Some (sample_linked, sample_neo) /\
  repr_object 1 (heap sample_world) (Some 2%positive) =
  Some ("CloseApproach(time='2020-02-29 23:59', distance=0.50, velocity=0.00, " +:+
        "neo=NearEarthObject(designation='2020 AB', name=None, diameter=nan, " +:+
        "hazardous='N'))").
Proof.
  assert (Ho : heap sample_world !! 2%positive = Some (CA sample_linked))
    by (vm_compute; reflexivity).
  assert (H : resolve (heap sample_world) 2%positive = Some (sample_linked, sample_neo))
    by (vm_compute; reflexivity).
  split; [exact Ho |]. split; [exact H |].
  refine (eq_trans (proj1 (repr_of_approach_in_store _ _ _ 0%nat Ho) _ H) _).
  vm_compute. reflexivity.
Defined.

(** ** The numbers in the two files *)


Lemma forall_chars_append (p : ascii -> bool) (s t : string) :
  forall_chars p (s +:+ t) = forall_chars p s && forall_chars p t.
Proof.
  induction s as [|c s IH]; [reflexivity |].
  rewrite append_cons. simpl. rewrite IH, andb_assoc. reflexivity.
Qed.


Lemma forall_chars_repeat (p : ascii -> bool) (c : ascii) (n : nat) :
  p c = true -> forall_chars p (repeat_char c n) = true.
Proof. intros H. induction n as [|n IH]; simpl; [reflexivity | rewrite H, IH; reflexivity]. Qed.

Lemma forall_chars_weaken (p q : ascii -> bool) (s : string) :
  (forall c, p c = true -> q c = true) ->
  forall_chars p s = true -> forall_chars q s = true.
Proof.
  intros Hpq. induction s as [|c s IH]; simpl; [reflexivity |].
  intros H. apply andb_true_iff in H as [Hc Hs]. rewrite (Hpq c Hc), (IH Hs). reflexivity.
Qed.

Lemma forall_chars_uint (d : Decimal.uint) :
  forall_chars is_digit (NilEmpty.string_of_uint d) = true.
Proof. induction d; simpl; auto. Qed.

Lemma forall_chars_digits_of (z : Z) : forall_chars is_digit (digits_of z) = true.
Proof.
  unfold digits_of, NilZero.string_of_uint.
  destruct (N.to_uint (Z.to_N z)) eqn:E; try reflexivity;
    rewrite <- E; apply forall_chars_uint.
Qed.

Lemma forall_chars_pad (w : nat) (z : Z) : forall_chars is_digit (pad w z) = true.
Proof.
  unfold pad. rewrite forall_chars_append, forall_chars_digits_of, andb_true_r.
  apply forall_chars_repeat. reflexivity.
Qed.








(** ** The time in the two files *)

Lemma forall_chars_str_datetime (t : datetime) :
  forall_chars datetime_char (str_datetime t) = true.
Proof.
  assert (Hpad : forall w z, forall_chars datetime_char (pad w z) = true).
  { intros w z. apply (forall_chars_weaken is_digit); [| apply forall_chars_pad].
    intros c Hc. unfold datetime_char. rewrite Hc. reflexivity. }
  unfold str_datetime. destruct (microsecond t =? 0);
    rewrite ?forall_chars_append, ?Hpad; reflexivity.
Qed.

Lemma forall_chars_datetime_to_str (t : datetime) :
  forall_chars datetime_char (helpers.datetime_to_str t) = true.
Proof.
  assert (Hpad : forall w z, forall_chars datetime_char (pad w z) = true).
  { intros w z. apply (forall_chars_weaken is_digit); [| apply forall_chars_pad].
    intros c Hc. unfold datetime_char. rewrite Hc. reflexivity. }
  unfold helpers.datetime_to_str. rewrite ?forall_chars_append, ?Hpad. reflexivity.
Qed.

Lemma datetime_char_not_special (s : string) :
  forall_chars datetime_char s = true -> contains_char csv.special s = false.
Proof.
  induction s as [|c s IH]; simpl; [reflexivity |].
  intros H. apply andb_true_iff in H as [Hc Hs]. rewrite (IH Hs), orb_false_r.
  clear - Hc. destruct c as [[] [] [] [] [] [] [] []]; try discriminate; reflexivity.
Qed.

Lemma datetime_char_escape (s : string) :
  forall_chars datetime_char s = true -> json.escape s = s.
Proof.
  induction s as [|c s IH]; simpl; [reflexivity |].
  intros H. apply andb_true_iff in H as [Hc Hs]. rewrite (IH Hs).
  clear - Hc. destruct c as [[] [] [] [] [] [] [] []]; try discriminate; reflexivity.
Qed.

Lemma row_text_two_or_more (a b : pyval) (l : list pyval) :
  csv.row_text (a :: b :: l) =
  csv.field (csv.field_text a) +:+ "," +:+
  join "," (map (fun v => csv.field (csv.field_text v)) (b :: l)) +:+
  csv.lineterminator.
Proof.
  unfold csv.row_text. cbn [map]. rewrite map_map.
  destruct (csv.field_text a); cbn [map join]; rewrite !append_assoc; reflexivity.
Qed.

Lemma row_text_first_field (c : CloseApproach.t) (n : NearEarthObject.t) :
  csv.row_text (spec.csv_line c n) =
  str_datetime (CloseApproach.time c) +:+ csv_row_rest (c, n).
Proof.
  unfold spec.csv_line. rewrite row_text_two_or_more.
  unfold csv.field at 1. cbn [csv.field_text str].
  rewrite datetime_char_not_special by apply forall_chars_str_datetime.
  reflexivity.
Qed.

Lemma json_obj_text_first_value (p : CloseApproach.t * NearEarthObject.t) :
  json_obj_text p =
  dq "{'datetime_utc': '" +:+ helpers.datetime_to_str (CloseApproach.time p.1) +:+
  dq "'" +:+ json_obj_text_rest p.
Proof.
  destruct p as [c n]. unfold json_obj_text, json_obj_text_rest. cbn [fst].
  unfold json.encode_string at 1.
  rewrite datetime_char_escape by apply forall_chars_datetime_to_str.
  rewrite !append_assoc. reflexivity.
Qed.

Lemma str_datetime_extends_display (t : datetime) :
  str_datetime t =
  helpers.datetime_to_str t +:+ ":" +:+ pad 2 (second t) +:+
  (if microsecond t =? 0 then EmptyString else "." +:+ pad 6 (microsecond t)).
Proof.
  unfold str_datetime, helpers.datetime_to_str. rewrite !append_assoc. reflexivity.
Qed.

(** C4.  For every sequence of linked approaches, [write_to_csv] leaves a
    file in which each data row begins with the raw instant as [str]
    renders it, seconds included, followed by the other fields, while
    [write_to_json] dumps objects whose first entry, datetime_utc, is the
    display string of the formatter; when the names are values the encoder
    accepts the JSON file holds that string verbatim between quotes at the
    head of each object.  The raw text is the display string followed by a
    colon and the seconds (and the microseconds when there are any), so the
    two writers never write the same text for this field. *)
Theorem datetime_utc_raw_in_csv_display_in_json :
  forall (w : world) (results : list ref) (filename : string)
         (pairs : list (CloseApproach.t * NearEarthObject.t)),
    resolve_all (heap w) results = Some pairs ->
    write.write_to_csv results filename w =
      (Ok tt,
       mk_world (heap w)
         (<[filename :=
              csv_header +:+ csv.lineterminator +:+
              concat_strings
                (map (fun p => str_datetime (CloseApproach.time p.1) +:+ csv_row_rest p)
                   pairs)]>
            (files w))) /\
    write.write_to_json results filename w =
      dumped
        (json.PyList
           (map (fun p =>
                   json.PyDict
                     (("datetime_utc",
                       json.Atom (PyStr (helpers.datetime_to_str (CloseApproach.time p.1))))
                      :: json_obj_rest p))
              pairs))
        filename w /\
    (Forall (fun p => json_scalar (NearEarthObject.name p.2) = true) pairs ->
     write.write_to_json results filename w =
       (Ok tt,
        mk_world (heap w)
          (<[filename :=
               "[" +:+
               join ", "
                 (map (fun p =>
                         dq "{'datetime_utc': '" +:+
                         helpers.datetime_to_str (CloseApproach.time p.1) +:+
                         dq "'" +:+ json_obj_text_rest p)
                    pairs) +:+
               "]"]>
             (files w)))) /\
    Forall (fun p =>
              let t := CloseApproach.time p.1 in
              helpers.datetime_to_str t = CloseApproach.time_str p.1 /\
              str_datetime t =
                helpers.datetime_to_str t +:+ ":" +:+ pad 2 (second t) +:+
                (if microsecond t =? 0 then EmptyString
                 else "." +:+ pad 6 (microsecond t)) /\
              str_datetime t <> helpers.datetime_to_str t)
      pairs.
Proof.
  intros w results filename pairs H.
  split; [| split; [| split]].
  - rewrite (write_to_csv_resolved _ _ _ _ H). unfold csv_rows.
    erewrite map_ext; [reflexivity |].
    intros [c n]. apply row_text_first_field.
  - rewrite (write_to_json_resolved _ _ _ _ H).
    erewrite map_ext; [reflexivity |].
    intros [c n]. reflexivity.
  - intros Hnames. rewrite (write_to_json_text _ _ _ _ H Hnames). unfold json_text.
    erewrite map_ext; [reflexivity |].
    intros p. apply json_obj_text_first_value.
  - apply Forall_forall. intros [c n] _. cbn [fst].
    split; [reflexivity |]. split; [apply str_datetime_extends_display |].
    rewrite str_datetime_extends_display. apply append_neq_self. discriminate.
Qed.

Lemma datetime_utc_raw_in_csv_display_in_json_witness :
  resolve_all (heap sample_world) [2%positive] = Some [(sample_linked, sample_neo)] /\
  files (write.write_to_csv [2%positive] "out.csv" sample_world).2 !! "out.csv" =
    Some (csv_header +:+ csv.lineterminator +:+
          "2020-02-29 23:59:00" +:+ ",0.5,0.0,2020 AB,,,N" +:+ csv.lineterminator) /\
  files (write.write_to_json [2%positive] "out.json" sample_world).2 !! "out.json" =
    Some (dq "[{'datetime_utc': '" +:+ "2020-02-29 23:59" +:+
          dq ("', 'distance_au': 0.5, 'velocity_km_s': 0.0, 'neo': " +:+
              "{'designation': '2020 AB', 'name': '', 'diameter_km': NaN, " +:+
              "'potentially_hazardous': true}}]")) /\
  str_datetime (CloseApproach.time sample_linked) <>
    helpers.datetime_to_str (CloseApproach.time sample_linked).
Proof.
  assert (H : resolve_all (heap sample_world) [2%positive] =
              Some [(sample_linked, sample_neo)]) by (vm_compute; reflexivity).
  assert (Hnames : Forall (fun p : CloseApproach.t * NearEarthObject.t =>
                             json_scalar (NearEarthObject.name p.2) = true)
                     [(sample_linked, sample_neo)]) by (repeat constructor).
  split; [exact H |].
  destruct (datetime_utc_raw_in_csv_display_in_json sample_world [2%positive] "out.csv"
              _ H) as (Hcsv & _ & _ & Htexts).
  destruct (datetime_utc_raw_in_csv_display_in_json sample_world [2%positive] "out.json"
              _ H) as (_ & _ & Hjson & _).
  split; [| split].
  - rewrite Hcsv. vm_compute. reflexivity.
  - rewrite (Hjson Hnames). vm_compute. reflexivity.
  - inversion Htexts as [|p ps (_ & _ & Hne) _]. exact Hne.
Defined.
